(** * The docker provider's task operations (apps/docker-provider/src/index.ts)

    A shallow embedding of [DockerTaskOperations]: capability probing,
    index / create / restore / delete, the lifecycle-hook dispatcher with
    its retry loop, port discovery from the container log, and
    [exponentialBackoff].

    Modelling conventions.
    - Every [await]ed call is sequential, so a method is a function from
      the instance state to a result and a new state (a state and
      exception monad, [M]).
    - The outside world is the command runner ([execa] and its [$] script
      form) and [Math.random].  Both are taken as an oracle [Env] whose
      answers may depend on everything that happened so far (the
      [history] of events).  The history is also the observable trace
      the theorems speak about.
    - JavaScript's [number] appears in three roles and is modelled by the
      type that is exact for each: the retry counter is an integer ([Z]),
      delays in milliseconds are rationals ([Q], exact arithmetic in
      place of IEEE rounding), and the discovered port is a [jsnum]
      (NaN, a finite integer-valued double, or Infinity). *)

From Stdlib Require Import ZArith QArith Qminmax Qpower Lqa Lia.
From Stdlib Require Import String Ascii List DecimalString DecimalPos.
From stdpp Require Import base strings gmap.
From Equations Require Import Equations.
From Equations.Prop Require Import Logic.

Local Open Scope string_scope.
Local Open Scope Z_scope.
Local Open Scope list_scope.

(** ** JavaScript values *)

Module JS.

(** Numbers that port discovery can produce. *)
Inductive jsnum :=
| NaN
| Num (z : Z)
| Infinity.

(** Primitive values found in the fields of a thrown object. *)
Inductive jsprim :=
| PUndefined
| PNull
| PBool (b : bool)
| PNumber (n : Z)
| PString (s : string).

(** A value in a [catch] clause: a primitive, or an object whose
    properties hold primitives. *)
Inductive jsvalue :=
| VPrim (p : jsprim)
| VObject (fields : gmap string jsprim).

Definition typeof (v : jsvalue) : string :=
  match v with
  | VPrim PUndefined => "undefined"
  | VPrim PNull => "object"
  | VPrim (PBool _) => "boolean"
  | VPrim (PNumber _) => "number"
  | VPrim (PString _) => "string"
  | VObject _ => "object"
  end.

(** [v === null] *)
Definition is_null (v : jsvalue) : bool :=
  match v with
  | VPrim PNull => true
  | _ => false
  end.

(** [k in v], for a [v] already known to be a non-null object. *)
Definition has_property (k : string) (v : jsvalue) : bool :=
  match v with
  | VObject fields => bool_decide (is_Some (fields !! k))
  | VPrim _ => false
  end.

(** [v?.k] *)
Definition get (v : jsvalue) (k : string) : jsprim :=
  match v with
  | VObject fields => default PUndefined (fields !! k)
  | VPrim _ => PUndefined
  end.

(** [!n] on a number: NaN and zero are falsy. *)
Definition falsy (n : jsnum) : bool :=
  match n with
  | NaN => true
  | Num z => z =? 0
  | Infinity => false
  end.

(** Decimal rendering of an integer, as a template literal prints it. *)
Definition string_of_Z (z : Z) : string :=
  NilZero.string_of_int (Z.to_int z).

(** The double nearest to a non-negative integer (round to nearest,
    ties to even; overflow gives Infinity).  Integers below 2^53 are
    represented exactly. *)
Definition to_double (z : Z) : jsnum :=
  if z <? 2 ^ 53 then Num z
  else
    let e := Z.log2 z - 52 in
    let q := z / 2 ^ e in
    let r := z mod 2 ^ e in
    let half := 2 ^ (e - 1) in
    let q' := if (half <? r) || ((r =? half) && Z.odd q) then q + 1 else q in
    let v := q' * 2 ^ e in
    if 2 ^ 1024 <=? v then Infinity else Num v.

Definition is_digit (c : ascii) : bool :=
  let n := N_of_ascii c in ((48 <=? n) && (n <=? 57))%N.

Definition digit_value (c : ascii) : Z := Z.of_N (N_of_ascii c) - 48.

(** Mathematical value of a string of decimal digits. *)
Fixpoint decimal_value_from (acc : Z) (ds : string) : Z :=
  match ds with
  | EmptyString => acc
  | String c ds' => decimal_value_from (10 * acc + digit_value c) ds'
  end.

Definition decimal_value (ds : string) : Z := decimal_value_from 0 ds.

(** [Number(x)] where [x] is [undefined] or a non-empty digit string,
    the only arguments the regular expression's capture can supply. *)
Definition Number (x : option string) : jsnum :=
  match x with
  | None => NaN
  | Some ds => to_double (decimal_value ds)
  end.

End JS.
Import JS.

(** ** Regular expression of the port announcement *)

Module Regex.

Definition announcement : string := "http server listening on port ".

(** [strip_prefix p s] is the rest of [s] after the literal [p]. *)
Fixpoint strip_prefix (p s : string) : option string :=
  match p, s with
  | EmptyString, _ => Some s
  | String a p', String b s' =>
      if Ascii.eqb a b then strip_prefix p' s' else None
  | String _ _, EmptyString => None
  end.

(** The longest run of digits at the front of [s] (greedy [[0-9]+]). *)
Fixpoint take_digits (s : string) : string :=
  match s with
  | EmptyString => EmptyString
  | String c s' => if is_digit c then String c (take_digits s') else EmptyString
  end.

(** The pattern anchored at the front of [s]: the literal followed by
    at least one digit; yields the named group [port]. *)
Definition match_here (s : string) : option string :=
  match strip_prefix announcement s with
  | Some rest =>
      match take_digits rest with
      | EmptyString => None
      | ds => Some ds
      end
  | None => None
  end.

(** [s.match(/http server listening on port (?<port>[0-9]+)/)?.groups?.port]:
    the leftmost position where the pattern matches. *)
Fixpoint match_port (s : string) : option string :=
  match match_here s with
  | Some ds => Some ds
  | None =>
      match s with
      | EmptyString => None
      | String _ s' => match_port s'
      end
  end.

End Regex.

(** ** Commands, outcomes and the event history *)

(** The two lifecycle hooks ([THookType]). *)
Inductive HookType := postStart | preStop.

Definition hook_name (type : HookType) : string :=
  match type with
  | postStart => "postStart"
  | preStop => "preStop"
  end.

Definition is_postStart (type : HookType) : bool :=
  match type with
  | postStart => true
  | preStop => false
  end.

(** The external commands the file issues, one constructor per call site
    shape:
    - [criu_version]: [$`criu --version`]
    - [docker_checkpoint]: [$`docker checkpoint`]
    - [docker_run args]: [execa("docker", ["run", ...args])]
    - [docker_unpause c]: [$`docker unpause ${c}`]
    - [docker_start ref c]: [$`docker start --checkpoint=${ref} ${c}`]
    - [docker_logs c]: [$`docker logs ${c}`]
    - [docker_exec c port type cause]:
      [execa("docker", ["exec", c, "busybox", "wget", "-q", "-O-",
                        `127.0.0.1:${port}/${type}?cause=${cause}`])] *)
Inductive command :=
| criu_version
| docker_checkpoint
| docker_run (args : list string)
| docker_unpause (containerName : string)
| docker_start (checkpointRef containerName : string)
| docker_logs (containerName : string)
| docker_exec (containerName : string) (port : jsnum) (type : HookType)
    (cause : string).

(** What an awaited command resolves to ([Awaited<ExecaChildProcess>]). *)
Record ExecaReturnValue := {
  exitCode : Z;
  stdout : string;
  stderr : string;
  escapedCommand : string;
}.

(** An awaited command either resolves or rejects with some value. *)
Inductive outcome :=
| Resolved (r : ExecaReturnValue)
| Rejected (v : jsvalue).

Inductive level := LOG | DEBUG | ERROR.

Inductive logarg :=
| LString (s : string)
| LResult (r : ExecaReturnValue)
| LObject (fields : list (string * jsvalue)).

Inductive event :=
| Exec (c : command) (o : outcome)
| Logged (l : level) (args : list logarg)
| Slept (ms : Q).

(** The environment: the command runner and the random source, both
    functions of the history so far. *)
Record Env := {
  execa : list event -> command -> outcome;
  Math_random : list event -> Q;
}.

(** ** Exceptions and the method monad *)

(** What travels up a [throw]: a value the command runner rejected with,
    or an [Error] object this file constructed with [new Error(message)]. *)
Inductive exn :=
| Thrown (v : jsvalue)
| Error (message : string).

(** The value bound by [catch (error)]. *)
Definition value_of (e : exn) : jsvalue :=
  match e with
  | Thrown v => v
  | Error message => VObject {[ "message" := PString message ]}
  end.

Inductive result (A : Type) :=
| Ok (a : A)
| Throw (e : exn).
Arguments Ok {A} a.
Arguments Throw {A} e.

(** Private fields of a [DockerTaskOperations] instance, with the history
    of its interaction with the outside. *)
Record state := {
  initialized : bool;
  canCheckpoint : bool;
  history : list event;
}.

Definition M (A : Type) : Type := state -> result A * state.

Definition ret {A} (a : A) : M A := fun s => (Ok a, s).

Definition bind {A B} (m : M A) (k : A -> M B) : M B :=
  fun s =>
    match m s with
    | (Ok a, s') => k a s'
    | (Throw e, s') => (Throw e, s')
    end.

Definition throw {A} (e : exn) : M A := fun s => (Throw e, s).

(** [try { m } catch (error) { handler error }] *)
Definition try_catch {A} (m : M A) (handler : exn -> M A) : M A :=
  fun s =>
    match m s with
    | (Ok a, s') => (Ok a, s')
    | (Throw e, s') => handler e s'
    end.

(** [try { m } catch { ... return ... }] followed by more code: run [m]
    and hand its outcome to what follows. *)
Definition attempt {A} (m : M A) : M (result A) :=
  fun s => let (r, s') := m s in (Ok r, s').

Definition get_state : M state := fun s => (Ok s, s).

Declare Scope method_scope.
Delimit Scope method_scope with method.
Notation "'let*' x ':=' c1 'in' c2" := (bind c1 (fun x => c2))
  (at level 10, x name, c1 at level 100, c2 at level 200) : method_scope.
Notation "c1 ';;' c2" := (bind c1 (fun _ => c2))
  (at level 100, c2 at level 200, right associativity) : method_scope.
Local Open Scope method_scope.

Definition record_event (ev : event) (s : state) : state :=
  {| initialized := initialized s;
     canCheckpoint := canCheckpoint s;
     history := history s ++ [ev] |}.

Definition set_initialized (b : bool) : M unit :=
  fun s => (Ok tt, {| initialized := b;
                      canCheckpoint := canCheckpoint s;
                      history := history s |}).

Definition set_canCheckpoint (b : bool) : M unit :=
  fun s => (Ok tt, {| initialized := initialized s;
                      canCheckpoint := b;
                      history := history s |}).

(** Modelled from the spec: the [SimpleLogger] of @trigger.dev/core-apps,
    "an object capable of leveled log calls".  [logger.log],
    [logger.debug] and [logger.error] record a leveled event; whether the
    sink prints it is not modelled. *)
Definition log (l : level) (args : list logarg) (s : state) : state :=
  record_event (Logged l args) s.

Definition logger (l : level) (args : list logarg) : M unit :=
  fun s => (Ok tt, log l args s).

(** Modelled from the spec: [logger.debug(x)] of the same [SimpleLogger];
    the source uses its value as [x] ([unpause.exitCode], [logs.stdout]),
    so it hands its argument back. *)
Definition logger_debug (r : ExecaReturnValue) : M ExecaReturnValue :=
  fun s => (Ok r, log DEBUG [LResult r] s).

(** [await setTimeout(ms)] from node:timers/promises *)
Definition sleep (ms : Q) (s : state) : state := record_event (Slept ms) s.

Definition isExecaChildProcess (maybeExeca : jsvalue) : bool :=
  String.eqb (typeof maybeExeca) "object"
  && negb (is_null maybeExeca)
  && has_property "escapedCommand" maybeExeca.

(** ** Request records

    Modelled from the spec: the option types of @trigger.dev/core-apps,
    with the fields of the data model that the methods read. *)

Record TaskOperationsIndexOptions := {
  index_shortCode : string;
  index_imageRef : string;
  index_apiKey : string;
  index_apiUrl : string;
  index_envId : string;
}.

Record TaskOperationsCreateOptions := {
  create_image : string;
  create_envId : string;
  create_runId : string;
}.

Record TaskOperationsRestoreOptions := {
  restore_runId : string;
  restore_checkpointRef : string;
}.

Record InitializeReturn := {
  ret_canCheckpoint : bool;
  willSimulate : bool;
}.

Definition str (s : string) : jsvalue := VPrim (PString s).

Definition index_opts_value (opts : TaskOperationsIndexOptions) : jsvalue :=
  VObject (<[ "shortCode" := PString (index_shortCode opts) ]>
          (<[ "imageRef" := PString (index_imageRef opts) ]>
          (<[ "apiKey" := PString (index_apiKey opts) ]>
          (<[ "apiUrl" := PString (index_apiUrl opts) ]>
          {[ "envId" := PString (index_envId opts) ]})))).

Definition create_opts_value (opts : TaskOperationsCreateOptions) : jsvalue :=
  VObject (<[ "image" := PString (create_image opts) ]>
          (<[ "envId" := PString (create_envId opts) ]>
          {[ "runId" := PString (create_runId opts) ]})).

(** ** DockerTaskOperations *)

Section DockerTaskOperations.

(** The outside world. *)
Variable env : Env.

(** [this.opts.forceSimulate], fixed by the constructor. *)
Variable forceSimulate : bool.

(** Module constants read from the process environment, as the strings
    the template literals print. *)
Variables COORDINATOR_PORT COORDINATOR_HOST
          OTEL_EXPORTER_OTLP_ENDPOINT : string.

(** [await execa(...)] / [await $`...`]: ask the runner, record what
    happened, resolve or throw. *)
Definition run (c : command) : M ExecaReturnValue :=
  fun s =>
    let o := execa env (history s) c in
    let s' := record_event (Exec c o) s in
    match o with
    | Resolved r => (Ok r, s')
    | Rejected v => (Throw (Thrown v), s')
    end.

Definition getInitializeReturn (s : state) : InitializeReturn :=
  {| ret_canCheckpoint := canCheckpoint s;
     willSimulate := negb (canCheckpoint s) || forceSimulate |}.

Definition initialize : M InitializeReturn :=
  let* this := get_state in
  if initialized this then ret (getInitializeReturn this)
  else
    logger LOG [LString "Initializing task operations"];;
    (if forceSimulate
     then logger LOG [LString "Forced simulation enabled. Will simulate regardless of checkpoint support."]
     else ret tt);;
    let* criu := attempt (run criu_version) in
    match criu with
    | Throw error =>
        logger ERROR [LString "No checkpoint support: Missing CRIU binary. Will simulate instead."];;
        set_canCheckpoint false;;
        set_initialized true;;
        let* this := get_state in
        ret (getInitializeReturn this)
    | Ok _ =>
        let* checkpoint := attempt (run docker_checkpoint) in
        match checkpoint with
        | Throw error =>
            logger ERROR [LString "No checkpoint support: Docker needs to have experimental features enabled"];;
            logger ERROR [LString "Will simulate instead"];;
            set_canCheckpoint false;;
            set_initialized true;;
            let* this := get_state in
            ret (getInitializeReturn this)
        | Ok _ =>
            logger LOG [LString "Full checkpoint support!"];;
            set_initialized true;;
            set_canCheckpoint true;;
            let* this := get_state in
            ret (getInitializeReturn this)
        end
    end.

Definition getIndexContainerName (suffix : string) : string :=
  "task-index-" +:+ suffix.

Definition getRunContainerName (suffix : string) : string :=
  "task-run-" +:+ suffix.

Definition index_args (opts : TaskOperationsIndexOptions)
    (containerName : string) : list string :=
  [ "--network=host";
    "--rm";
    "--env=INDEX_TASKS=true";
    "--env=TRIGGER_SECRET_KEY=" +:+ index_apiKey opts;
    "--env=TRIGGER_API_URL=" +:+ index_apiUrl opts;
    "--env=TRIGGER_ENV_ID=" +:+ index_envId opts;
    "--env=OTEL_EXPORTER_OTLP_ENDPOINT=" +:+ OTEL_EXPORTER_OTLP_ENDPOINT;
    "--env=POD_NAME=" +:+ containerName;
    "--env=COORDINATOR_HOST=" +:+ COORDINATOR_HOST;
    "--env=COORDINATOR_PORT=" +:+ COORDINATOR_PORT;
    "--name=" +:+ containerName;
    index_imageRef opts ].

Definition create_args (opts : TaskOperationsCreateOptions)
    (containerName : string) : list string :=
  [ "--network=host";
    "--detach";
    "--env=TRIGGER_ENV_ID=" +:+ create_envId opts;
    "--env=TRIGGER_RUN_ID=" +:+ create_runId opts;
    "--env=OTEL_EXPORTER_OTLP_ENDPOINT=" +:+ OTEL_EXPORTER_OTLP_ENDPOINT;
    "--env=POD_NAME=" +:+ containerName;
    "--env=COORDINATOR_HOST=" +:+ COORDINATOR_HOST;
    "--env=COORDINATOR_PORT=" +:+ COORDINATOR_PORT;
    "--name=" +:+ containerName;
    create_image opts ].

(** The diagnostic object of the "Index failed:" / "Create failed:" log. *)
Definition failure_fields (opts : jsvalue) (error : jsvalue)
    : list (string * jsvalue) :=
  [ ("opts", opts);
    ("exitCode", VPrim (get error "exitCode"));
    ("escapedCommand", VPrim (get error "escapedCommand"));
    ("stdout", VPrim (get error "stdout"));
    ("stderr", VPrim (get error "stderr")) ].

Definition index (opts : TaskOperationsIndexOptions) : M unit :=
  initialize;;
  let containerName := getIndexContainerName (index_shortCode opts) in
  logger LOG [LString ("Indexing task " +:+ index_imageRef opts);
              LObject [("host", str COORDINATOR_HOST);
                       ("port", str COORDINATOR_PORT)]];;
  try_catch
    (let* r := run (docker_run (index_args opts containerName)) in
     logger_debug r;;
     ret tt)
    (fun error =>
       if negb (isExecaChildProcess (value_of error)) then throw error
       else
         logger ERROR [LString "Index failed:";
                       LObject (failure_fields (index_opts_value opts)
                                               (value_of error))]).

Definition create (opts : TaskOperationsCreateOptions) : M unit :=
  initialize;;
  let containerName := getRunContainerName (create_runId opts) in
  try_catch
    (let* r := run (docker_run (create_args opts containerName)) in
     logger_debug r;;
     ret tt)
    (fun error =>
       if negb (isExecaChildProcess (value_of error)) then throw error
       else
         logger ERROR [LString "Create failed:";
                       LObject (failure_fields (create_opts_value opts)
                                               (value_of error))]).

(** [exponentialBackoff]; the random draw is the environment's answer at
    the current history. *)
Definition exponentialBackoff (retryCount : Z)
    (exponential minDelay maxDelay jitter : Q) (s : state) : Q :=
  let delay := Qmin (Qpower exponential retryCount * minDelay) maxDelay in
  let jitterValue := (Math_random env (history s) * jitter)%Q in
  (delay + jitterValue)%Q.

Definition getHttpServerPort (containerName : string) : M jsnum :=
  let* logs := (let* r := run (docker_logs containerName) in logger_debug r) in
  let matches := Regex.match_port (stdout logs) in
  let port := Number matches in
  if falsy port then throw (Error "failed to extract port from logs")
  else ret port.

(** The recursion of the source is on a growing [retryCount]; it stops
    because the retry branch needs [retryCount < 6]. *)
Equations? runLifecycleCommand (containerName : string) (port : jsnum)
    (type : HookType) (cause : string) (retryCount : Z) (s : state)
    : result ExecaReturnValue * state
    by wf (Z.to_nat (6 - retryCount)) lt :=
  runLifecycleCommand containerName port type cause retryCount s
    with run (docker_exec containerName port type cause) s => {
    | (Ok r, s1) => (Ok r, s1);
    | (Throw error, s1)
        with inspect (is_postStart type && (retryCount <? 6)) => {
        | exist _ true retriable =>
            let s2 :=
              log DEBUG
                [LString ("retriable " +:+ hook_name type +:+ " error");
                 LObject [("retryCount", VPrim (PNumber retryCount));
                          ("message", VPrim (get (value_of error) "message"))]]
                s1 in
            let s3 :=
              sleep (exponentialBackoff (retryCount + 1) 2 50 1150 50 s2) s2 in
            runLifecycleCommand containerName port type cause
              (retryCount + 1) s3;
        | exist _ false _ =>
            let s2 :=
              log ERROR
                [LString ("final " +:+ hook_name type +:+ " error");
                 LObject [("message", VPrim (get (value_of error) "message"))]]
                s1 in
            (Throw (Error (hook_name type +:+ " command failed after "
                           +:+ string_of_Z (retryCount - 1) +:+ " retries")),
             s2) } }.
Proof.
  apply andb_prop in retriable as [_ H%Z.ltb_lt]. lia.
Qed.

Definition sendPostStart (containerName : string) : M unit :=
  try_catch
    (let* port := getHttpServerPort containerName in
     let* r := runLifecycleCommand containerName port postStart "restore" 0 in
     logger_debug r;;
     ret tt)
    (fun error =>
       logger ERROR [LString "postStart error";
                     LObject [("error", value_of error)]];;
       throw (Error "postStart command failed")).

Definition sendPreStop (containerName : string) : M unit :=
  try_catch
    (let* port := getHttpServerPort containerName in
     let* r := runLifecycleCommand containerName port preStop "terminate" 0 in
     logger_debug r;;
     ret tt)
    (fun error =>
       logger ERROR [LString "preStop error";
                     LObject [("error", value_of error)]];;
       throw (Error "preStop command failed")).

Definition restore (opts : TaskOperationsRestoreOptions) : M unit :=
  initialize;;
  let containerName := getRunContainerName (restore_runId opts) in
  let* this := get_state in
  if negb (canCheckpoint this) || forceSimulate then
    logger LOG [LString "Simulating restore"];;
    let* unpause :=
      (let* r := run (docker_unpause containerName) in logger_debug r) in
    if negb (exitCode unpause =? 0)
    then throw (Error "docker unpause command failed")
    else sendPostStart containerName
  else
    let* started :=
      (let* r := run (docker_start (restore_checkpointRef opts) containerName)
       in logger_debug r) in
    if negb (exitCode started =? 0)
    then throw (Error "docker start command failed")
    else sendPostStart containerName.

Definition delete (runId : string) : M unit :=
  initialize;;
  let containerName := getRunContainerName runId in
  sendPreStop containerName;;
  logger LOG [LString "noop: delete"].

Definition get_ (runId : string) : M unit :=
  initialize;;
  logger LOG [LString "noop: get"].

End DockerTaskOperations.

(** ** Observing a history *)

(** The events a method added, given the states before and after it. *)
Definition new_events (s s' : state) : list event :=
  drop (length (history s)) (history s').

(** [s'] is reached from [s] by emitting [tr] and keeping the fields. *)
Definition emits (s : state) (tr : list event) (s' : state) : Prop :=
  history s' = history s ++ tr
  /\ initialized s' = initialized s
  /\ canCheckpoint s' = canCheckpoint s.

Definition is_port_discovery (ev : event) : bool :=
  match ev with
  | Exec (docker_logs _) _ => true
  | _ => false
  end.

Definition is_delivery (ev : event) : bool :=
  match ev with
  | Exec (docker_exec _ _ _ _) _ => true
  | _ => false
  end.

(** Any traffic of the lifecycle-hook dispatcher. *)
Definition is_hook_traffic (ev : event) : bool :=
  is_port_discovery ev || is_delivery ev.

Definition is_unpause (ev : event) : bool :=
  match ev with
  | Exec (docker_unpause _) _ => true
  | _ => false
  end.

Definition is_checkpoint_start (ev : event) : bool :=
  match ev with
  | Exec (docker_start _ _) _ => true
  | _ => false
  end.

(** The runtime command of [restore]: unpause or start-from-checkpoint. *)
Definition is_runtime_command (ev : event) : bool :=
  is_unpause ev || is_checkpoint_start ev.

(** The runtime command resolved with exit code zero. *)
Definition runtime_success (ev : event) : bool :=
  match ev with
  | Exec (docker_unpause _) (Resolved r)
  | Exec (docker_start _ _) (Resolved r) => exitCode r =? 0
  | _ => false
  end.

(** A hook request that the container answered. *)
Definition is_delivered (type : HookType) (ev : event) : bool :=
  match ev with
  | Exec (docker_exec _ _ t _) (Resolved _) =>
      bool_decide (hook_name t = hook_name type)
  | _ => false
  end.

Definition is_probe (ev : event) : bool :=
  match ev with
  | Exec criu_version _ | Exec docker_checkpoint _ | Logged _ _ => true
  | _ => false
  end.

Definition is_launch (ev : event) : bool :=
  match ev with
  | Exec (docker_run _) _ => true
  | _ => false
  end.

Definition count (p : event -> bool) (tr : list event) : nat :=
  length (filter (fun ev => p ev = true) tr).

(** The delays slept, in order. *)
Fixpoint sleeps (tr : list event) : list Q :=
  match tr with
  | [] => []
  | Slept ms :: tr' => ms :: sleeps tr'
  | _ :: tr' => sleeps tr'
  end.

(** ** Trace grammars

    What each method may emit, as inductive descriptions of its new
    events together with its result. *)

Section Grammars.

Variable env : Env.

Variables COORDINATOR_PORT COORDINATOR_HOST OTEL_EXPORTER_OTLP_ENDPOINT : string.

(** The message of the terminal error of the retry loop. *)
Definition final_message (type : HookType) (retryCount : Z) : string :=
  hook_name type +:+ " command failed after "
  +:+ string_of_Z (retryCount - 1) +:+ " retries".

(** Shape of what one call of [runLifecycleCommand] at [retryCount]
    emits: rejected attempts, each followed by a debug log and a sleep
    of [exponentialBackoff (retryCount + 1)], closed either by an
    answered request or by the final error. *)
Inductive delivery_trace (containerName : string) (port : jsnum)
    (type : HookType) (cause : string)
    : Z -> list event -> result ExecaReturnValue -> Prop :=
| delivered retryCount r :
    delivery_trace containerName port type cause retryCount
      [Exec (docker_exec containerName port type cause) (Resolved r)]
      (Ok r)
| retried retryCount v args s2 tr res :
    type = postStart ->
    retryCount < 6 ->
    delivery_trace containerName port type cause (retryCount + 1) tr res ->
    delivery_trace containerName port type cause retryCount
      (Exec (docker_exec containerName port type cause) (Rejected v)
       :: Logged DEBUG args
       :: Slept (exponentialBackoff env (retryCount + 1) 2 50 1150 50 s2)
       :: tr)
      res
| gave_up retryCount v args :
    is_postStart type && (retryCount <? 6) = false ->
    delivery_trace containerName port type cause retryCount
      [Exec (docker_exec containerName port type cause) (Rejected v);
       Logged ERROR args]
      (Throw (Error (final_message type retryCount))).

(** The error a dispatcher raises, whatever went wrong underneath. *)
Definition hook_error (type : HookType) : exn :=
  Error (hook_name type +:+ " command failed").

(** Shape of what one dispatch ([sendPostStart] or [sendPreStop]) emits:
    one snapshot of the log, then, only if a port was found, one run of
    the delivery loop starting at retry counter 0. *)
Inductive dispatch_trace (containerName : string) (type : HookType)
    (cause : string) : list event -> result unit -> Prop :=
| logs_unavailable v args :
    dispatch_trace containerName type cause
      [Exec (docker_logs containerName) (Rejected v); Logged ERROR args]
      (Throw (hook_error type))
| port_missing r args :
    falsy (Number (Regex.match_port (stdout r))) = true ->
    dispatch_trace containerName type cause
      [Exec (docker_logs containerName) (Resolved r);
       Logged DEBUG [LResult r];
       Logged ERROR args]
      (Throw (hook_error type))
| hook_answered r tr r' :
    falsy (Number (Regex.match_port (stdout r))) = false ->
    delivery_trace containerName (Number (Regex.match_port (stdout r)))
      type cause 0 tr (Ok r') ->
    dispatch_trace containerName type cause
      (Exec (docker_logs containerName) (Resolved r)
       :: Logged DEBUG [LResult r]
       :: tr ++ [Logged DEBUG [LResult r']])
      (Ok tt)
| hook_failed r tr e args :
    falsy (Number (Regex.match_port (stdout r))) = false ->
    delivery_trace containerName (Number (Regex.match_port (stdout r)))
      type cause 0 tr (Throw e) ->
    dispatch_trace containerName type cause
      (Exec (docker_logs containerName) (Resolved r)
       :: Logged DEBUG [LResult r]
       :: tr ++ [Logged ERROR args])
      (Throw (hook_error type)).

(** The runtime command of a restore, by mode. *)
Definition runtime_command (opts : TaskOperationsRestoreOptions)
    (simulate : bool) : command :=
  let containerName := getRunContainerName (restore_runId opts) in
  if simulate then docker_unpause containerName
  else docker_start (restore_checkpointRef opts) containerName.

Definition restore_prelude (simulate : bool) : list event :=
  if simulate then [Logged LOG [LString "Simulating restore"]] else [].

(** The error of the exit-code guard that follows the runtime command. *)
Definition guard_error (simulate : bool) : exn :=
  Error (if simulate then "docker unpause command failed"
         else "docker start command failed").

(** Shape of what [restore] emits once the probe is done.  The outcome of
    the runtime command is the runner's answer at some history [h]. *)
Inductive restore_trace (opts : TaskOperationsRestoreOptions)
    (simulate : bool) : list event -> result unit -> Prop :=
| runtime_rejected h v :
    execa env h (runtime_command opts simulate) = Rejected v ->
    restore_trace opts simulate
      (restore_prelude simulate
       ++ [Exec (runtime_command opts simulate) (Rejected v)])
      (Throw (Thrown v))
| runtime_nonzero h r :
    execa env h (runtime_command opts simulate) = Resolved r ->
    exitCode r <> 0 ->
    restore_trace opts simulate
      (restore_prelude simulate
       ++ [Exec (runtime_command opts simulate) (Resolved r);
           Logged DEBUG [LResult r]])
      (Throw (guard_error simulate))
| runtime_ok h r tr res :
    execa env h (runtime_command opts simulate) = Resolved r ->
    exitCode r = 0 ->
    dispatch_trace (getRunContainerName (restore_runId opts)) postStart
      "restore" tr res ->
    restore_trace opts simulate
      (restore_prelude simulate
       ++ Exec (runtime_command opts simulate) (Resolved r)
       :: Logged DEBUG [LResult r] :: tr)
      res.

(** Shape of what a launch ([index] or [create]) emits after the probe and
    its own opening logs [pre]: the launch command, then a debug log of
    the result, or the diagnostic, or nothing when the error is rethrown. *)
Inductive launch_trace (cmd : command) (label : string) (opts : jsvalue)
    (pre : list event) : list event -> result unit -> Prop :=
| launch_resolved r :
    launch_trace cmd label opts pre
      (pre ++ [Exec cmd (Resolved r); Logged DEBUG [LResult r]]) (Ok tt)
| launch_exit_failure v :
    isExecaChildProcess v = true ->
    launch_trace cmd label opts pre
      (pre ++ [Exec cmd (Rejected v);
               Logged ERROR [LString label; LObject (failure_fields opts v)]])
      (Ok tt)
| launch_rethrown v :
    isExecaChildProcess v = false ->
    launch_trace cmd label opts pre
      (pre ++ [Exec cmd (Rejected v)]) (Throw (Thrown v)).

(** The container launch of [index]. *)
Definition index_command (opts : TaskOperationsIndexOptions) : command :=
  docker_run
    (index_args COORDINATOR_PORT COORDINATOR_HOST OTEL_EXPORTER_OTLP_ENDPOINT
       opts (getIndexContainerName (index_shortCode opts))).

(** The container launch of [create]. *)
Definition create_command (opts : TaskOperationsCreateOptions) : command :=
  docker_run
    (create_args COORDINATOR_PORT COORDINATOR_HOST OTEL_EXPORTER_OTLP_ENDPOINT
       opts (getRunContainerName (create_runId opts))).

End Grammars.

(** ** The regular expression, declaratively *)

Fixpoint all_digits (ds : string) : bool :=
  match ds with
  | EmptyString => true
  | String c ds' => is_digit c && all_digits ds'
  end.

Definition starts_with_digit (s : string) : bool :=
  match s with
  | EmptyString => false
  | String c _ => is_digit c
  end.

(** The pattern matches [s] at offset [length pre]. *)
Definition pattern_at (s pre : string) : Prop :=
  exists d rest,
    is_digit d = true /\ s = pre +:+ Regex.announcement +:+ String d rest.

(** The match at offset [length pre] captures exactly [ds]: the digits
    that follow the literal, up to the first non-digit. *)
Definition occurs_at (s pre ds post : string) : Prop :=
  s = pre +:+ Regex.announcement +:+ ds +:+ post
  /\ ds <> EmptyString
  /\ all_digits ds = true
  /\ starts_with_digit post = false.

(** The leftmost match of the pattern in [s]. *)
Definition first_occurrence (s pre ds post : string) : Prop :=
  occurs_at s pre ds post
  /\ forall pre', pattern_at s pre' -> (String.length pre <= String.length pre')%nat.

Definition no_occurrence (s : string) : Prop :=
  forall pre, ~ pattern_at s pre.

(** ** Backoff arithmetic and port discovery *)



Definition port_error : exn := Error "failed to extract port from logs".

(** ** Concrete environments *)

Module Scenario.

Definition ok (out : string) : ExecaReturnValue :=
  {| exitCode := 0; stdout := out; stderr := ""; escapedCommand := "docker" |}.

Definition exited (code : Z) : ExecaReturnValue :=
  {| exitCode := code; stdout := ""; stderr := "failed";
     escapedCommand := "docker" |}.

(** What [execa] rejects with when the child exits with [code]. *)
Definition exit_failure (code : Z) : jsvalue :=
  VObject (<[ "exitCode" := PNumber code ]>
          (<[ "escapedCommand" := PString "docker" ]>
          (<[ "stdout" := PString "" ]>
          (<[ "stderr" := PString "failed" ]>
          {[ "message" := PString "Command failed with exit code" ]})))).


(** An environment given by the answer to each kind of command; the n-th
    log snapshot and the n-th hook request may differ. *)
Definition scripted (probe runtime launch : outcome)
    (logs hook : nat -> outcome) (random : Q) : Env :=
  {| execa := fun h c =>
       match c with
       | criu_version | docker_checkpoint => probe
       | docker_run _ => launch
       | docker_unpause _ | docker_start _ _ => runtime
       | docker_logs _ => logs (count is_port_discovery h)
       | docker_exec _ _ _ _ => hook (count is_delivery h)
       end;
     Math_random := fun _ => random |}.

Definition port_4000 : string :=
  "...
http server listening on port 4000
...".

(** Everything works, the control server announced port 4000. *)
Definition healthy : Env :=
  scripted (Resolved (ok "")) (Resolved (ok "")) (Resolved (ok ""))
    (fun _ => Resolved (ok port_4000)) (fun _ => Resolved (ok "")) (1 # 2).

(** The hook request fails [failures] times, then is answered. *)
Definition flaky (failures : nat) (random : Q) : Env :=
  scripted (Resolved (ok "")) (Resolved (ok "")) (Resolved (ok ""))
    (fun _ => Resolved (ok port_4000))
    (fun n => if (n <? failures)%nat then Rejected (exit_failure 1)
              else Resolved (ok ""))
    random.

(** The runtime command answers [runtime]. *)
Definition with_runtime (runtime : outcome) : Env :=
  scripted (Resolved (ok "")) runtime (Resolved (ok ""))
    (fun _ => Resolved (ok port_4000)) (fun _ => Resolved (ok "")) (1 # 2).


(** The log holds [snapshot] whenever it is read. *)
Definition with_logs (snapshot : string) : Env :=
  scripted (Resolved (ok "")) (Resolved (ok "")) (Resolved (ok ""))
    (fun _ => Resolved (ok snapshot)) (fun _ => Resolved (ok "")) (1 # 2).

(** The control server announces its port only after the first snapshot. *)
Definition late_port : Env :=
  scripted (Resolved (ok "")) (Resolved (ok "")) (Resolved (ok ""))
    (fun n => match n with
              | O => Resolved (ok "starting")
              | S _ => Resolved (ok port_4000)
              end)
    (fun _ => Resolved (ok "")) (1 # 2).

Definition fresh : state :=
  {| initialized := false; canCheckpoint := false; history := [] |}.

Definition run_9 : TaskOperationsRestoreOptions :=
  {| restore_runId := "run_9"; restore_checkpointRef := "cp_1" |}.

Definition index_abc123 : TaskOperationsIndexOptions :=
  {| index_shortCode := "abc123"; index_imageRef := "myimg:1";
     index_apiKey := "key"; index_apiUrl := "http://api";
     index_envId := "env_1" |}.


End Scenario.

(** ** The capability probe, its callers and the module configuration *)

Definition is_criu (ev : event) : bool :=
  match ev with
  | Exec criu_version _ => true
  | _ => false
  end.

Definition is_docker_checkpoint (ev : event) : bool :=
  match ev with
  | Exec docker_checkpoint _ => true
  | _ => false
  end.

(** A command of the capability probe. *)
Definition is_probe_command (ev : event) : bool :=
  is_criu ev || is_docker_checkpoint ev.

(** The opening logs of a probe. *)
Definition probe_prelude (forceSimulate : bool) : list event :=
  Logged LOG [LString "Initializing task operations"]
  :: (if forceSimulate
      then [Logged LOG [LString "Forced simulation enabled. Will simulate regardless of checkpoint support."]]
      else []).

(** Shape of what [#initialize] emits on an instance that is not yet
    initialized, with the value it leaves in [#canCheckpoint]. *)
Inductive probe_trace (forceSimulate : bool) : list event -> bool -> Prop :=
| probe_no_criu v :
    probe_trace forceSimulate
      (probe_prelude forceSimulate
       ++ [Exec criu_version (Rejected v);
           Logged ERROR [LString "No checkpoint support: Missing CRIU binary. Will simulate instead."]])
      false
| probe_no_docker r v :
    probe_trace forceSimulate
      (probe_prelude forceSimulate
       ++ [Exec criu_version (Resolved r);
           Exec docker_checkpoint (Rejected v);
           Logged ERROR [LString "No checkpoint support: Docker needs to have experimental features enabled"];
           Logged ERROR [LString "Will simulate instead"]])
      false
| probe_full r1 r2 :
    probe_trace forceSimulate
      (probe_prelude forceSimulate
       ++ [Exec criu_version (Resolved r1);
           Exec docker_checkpoint (Resolved r2);
           Logged LOG [LString "Full checkpoint support!"]])
      true.

(** [FORCE_CHECKPOINT_SIMULATION], from the value of the environment
    variable of that name ([None] when it is not set):
    [["1", "true"].includes(process.env.FORCE_CHECKPOINT_SIMULATION ?? "true")]. *)
Definition FORCE_CHECKPOINT_SIMULATION (variable : option string) : bool :=
  let value := default "true" variable in
  existsb (String.eqb value) ["1"; "true"].

(** The operations of the [TaskOperations] interface, as the provider
    shell can request them. *)
Inductive request :=
| Index (opts : TaskOperationsIndexOptions)
| Create (opts : TaskOperationsCreateOptions)
| Restore (opts : TaskOperationsRestoreOptions)
| Delete (runId : string)
| Get (runId : string).

Section Provider.

Variable env : Env.
Variable forceSimulate : bool.
Variables COORDINATOR_PORT COORDINATOR_HOST OTEL_EXPORTER_OTLP_ENDPOINT : string.

(** One request served by the instance. *)
Definition perform (req : request) : M unit :=
  match req with
  | Index opts =>
      index env forceSimulate COORDINATOR_PORT COORDINATOR_HOST
        OTEL_EXPORTER_OTLP_ENDPOINT opts
  | Create opts =>
      create env forceSimulate COORDINATOR_PORT COORDINATOR_HOST
        OTEL_EXPORTER_OTLP_ENDPOINT opts
  | Restore opts => restore env forceSimulate opts
  | Delete runId => delete env forceSimulate runId
  | Get runId => get_ env forceSimulate runId
  end.

(** Requests served one after the other on the same instance; a request
    that throws does not stop the next one from being served. *)
Fixpoint serve (reqs : list request) (s : state) : state :=
  match reqs with
  | [] => s
  | req :: reqs' => serve reqs' (snd (perform req s))
  end.

End Provider.

(** Shape of what [delete] emits after the probe: one PreStop dispatch,
    then the "noop" log if the dispatch did not throw. *)
Inductive delete_trace (env : Env) (runId : string)
    : list event -> result unit -> Prop :=
| delete_signalled tr :
    dispatch_trace env (getRunContainerName runId) preStop "terminate" tr
      (Ok tt) ->
    delete_trace env runId (tr ++ [Logged LOG [LString "noop: delete"]])
      (Ok tt)
| delete_failed tr e :
    dispatch_trace env (getRunContainerName runId) preStop "terminate" tr
      (Throw e) ->
    delete_trace env runId tr (Throw e).


(** ** More concrete environments *)

Module Cases.

(** The two probe commands answer [criu] and [checkpoint]; everything
    else is healthy. *)
Definition probing (criu checkpoint : outcome) : Env :=
  {| execa := fun h c =>
       match c with
       | criu_version => criu
       | docker_checkpoint => checkpoint
       | docker_logs _ => Resolved (Scenario.ok Scenario.port_4000)
       | _ => Resolved (Scenario.ok "")
       end;
     Math_random := fun _ => (1 # 2)%Q |}.

(** Full checkpoint support. *)
Definition supported : Env :=
  probing (Resolved (Scenario.ok "")) (Resolved (Scenario.ok "")).

(** No criu binary. *)
Definition no_criu : Env :=
  probing (Rejected (Scenario.exit_failure 127)) (Resolved (Scenario.ok "")).

(** An instance that has already been probed, without checkpoint support. *)
Definition probed : state :=
  {| initialized := true; canCheckpoint := false; history := [] |}.

End Cases.

(** The log line that closes a [delete] that did not throw. *)
Definition is_noop_delete (ev : event) : bool :=
  match ev with
  | Logged LOG [LString message] => String.eqb message "noop: delete"
  | _ => false
  end.

(** ** Background functions of the SDK (src/unnamed/part_000)

    The class [BackgroundFunction]: its option record, the version check
    [#validate] and the constructor.  The client is declared elsewhere
    and is a parameter. *)

Module BackgroundFunction.

(** [BackgroundFunctionOptions], without the schema, the log level and
    the [run] callback, which none of the modelled methods reads. *)
Record BackgroundFunctionOptions := {
  options_id : string;
  options_name : string;
  options_version : string;
  options_enabled : option bool;
}.

(** The rest of [s] after its leading digits. *)
Fixpoint skip_digits (s : string) : string :=
  match s with
  | EmptyString => EmptyString
  | String c s' => if is_digit c then skip_digits s' else s
  end.

(** [\d+] at the front of [s]: what follows the digits, if there is at
    least one. *)
Definition digits (s : string) : option string :=
  if starts_with_digit s then Some (skip_digits s) else None.

(** [\.] at the front of [s]. *)
Definition dot (s : string) : option string :=
  match s with
  | String c rest => if Ascii.eqb c "." then Some rest else None
  | EmptyString => None
  end.

(** [version.match(/^(\d+)\.(\d+)\.(\d+)$/)], as a truth value.  Digits
    and the dot exclude each other, so the greedy runs are the only way
    to match. *)
Definition matches_version (version : string) : bool :=
  match digits version with
  | Some s1 =>
      match dot s1 with
      | Some s2 =>
          match digits s2 with
          | Some s3 =>
              match dot s3 with
              | Some s4 =>
                  match digits s4 with
                  | Some s5 => String.eqb s5 EmptyString
                  | None => false
                  end
              | None => false
              end
          | None => false
          end
      | None => false
      end
  | None => false
  end.

(** The double quote character of the error message. *)
Definition quote : string := String (Ascii.ascii_of_nat 34) EmptyString.

Definition invalid_version (version : string) : exn :=
  Error ("Invalid job version: " +:+ quote +:+ version +:+ quote
         +:+ ". BackgroundFunction versions must be valid semver versions.").

(** [#validate()] *)
Definition validate (options : BackgroundFunctionOptions) : result unit :=
  if negb (matches_version (options_version options))
  then Throw (invalid_version (options_version options))
  else Ok tt.

Section Instance.

(** The state of the client and its [attachBackgroundFunction]. *)
Variable Client : Type.
Variable attachBackgroundFunction :
  BackgroundFunctionOptions -> Client -> result unit * Client.

(** [new BackgroundFunction(client, options)]: validate, then attach. *)
Definition construct (options : BackgroundFunctionOptions) (client : Client)
    : result unit * Client :=
  match validate options with
  | Throw e => (Throw e, client)
  | Ok _ => attachBackgroundFunction options client
  end.

End Instance.

(** A version in the accepted form: three non-empty runs of digits
    separated by dots. *)
Definition three_numbers (version : string) : Prop :=
  exists a b c,
    version = a +:+ "." +:+ b +:+ "." +:+ c
    /\ a <> EmptyString /\ all_digits a = true
    /\ b <> EmptyString /\ all_digits b = true
    /\ c <> EmptyString /\ all_digits c = true.

End BackgroundFunction.

(** * Properties *)

Lemma new_events_app s s' tr :
  history s' = history s ++ tr -> new_events s s' = tr.
Proof.
  intros H. unfold new_events. rewrite H. apply drop_app_length.
Qed.

Lemma emits_new_events s tr s' : emits s tr s' -> new_events s s' = tr.
Proof. intros [H _]. now apply new_events_app. Qed.

Lemma emits_trans s1 tr1 s2 tr2 s3 :
  emits s1 tr1 s2 -> emits s2 tr2 s3 -> emits s1 (tr1 ++ tr2) s3.
Proof.
  intros (H1 & I1 & C1) (H2 & I2 & C2). unfold emits.
  rewrite H2, H1, I2, I1, C2, C1, <- app_assoc. auto.
Qed.

Lemma emits_record ev s : emits s [ev] (record_event ev s).
Proof. unfold emits. auto. Qed.

Lemma count_app p (tr1 tr2 : list event) :
  count p (tr1 ++ tr2) = (count p tr1 + count p tr2)%nat.
Proof. unfold count. now rewrite filter_app, length_app. Qed.

Lemma count_cons p ev (tr : list event) :
  count p (ev :: tr) = ((if p ev then 1 else 0) + count p tr)%nat.
Proof.
  unfold count. destruct (p ev) eqn:E.
  - rewrite filter_cons_True by assumption. reflexivity.
  - rewrite filter_cons_False by congruence. reflexivity.
Qed.

Lemma count_nil p : count p [] = 0%nat.
Proof. reflexivity. Qed.

Lemma count_zero_Forall p (tr : list event) :
  count p tr = 0%nat <-> Forall (fun ev => p ev = false) tr.
Proof.
  induction tr as [|ev tr IH].
  - split; [constructor | reflexivity].
  - rewrite count_cons, Forall_cons. destruct (p ev); split.
    + discriminate.
    + intros [? _]; discriminate.
    + intros H. split; [reflexivity | now apply IH].
    + intros [_ H]. now apply IH.
Qed.

Lemma sleeps_app (tr1 tr2 : list event) :
  sleeps (tr1 ++ tr2) = sleeps tr1 ++ sleeps tr2.
Proof.
  induction tr1 as [|[| |ms] tr1 IH]; simpl; rewrite ?IH; reflexivity.
Qed.

Create Rewrite HintDb trace_rw.
#[export] Hint Rewrite count_app count_cons count_nil sleeps_app : trace_rw.

(** ** The methods refine their trace grammars *)

Section Traces.

Variable env : Env.
Variable forceSimulate : bool.

Lemma run_resolved c s r s1 :
  run env c s = (Ok r, s1) ->
  execa env (history s) c = Resolved r
  /\ s1 = record_event (Exec c (Resolved r)) s.
Proof.
  unfold run. destruct (execa env (history s) c); intros [= <- <-]; auto.
Qed.

Lemma run_rejected c s e s1 :
  run env c s = (Throw e, s1) ->
  exists v, e = Thrown v
            /\ execa env (history s) c = Rejected v
            /\ s1 = record_event (Exec c (Rejected v)) s.
Proof.
  unfold run. destruct (execa env (history s) c) as [r|v]; intros [= <- <-].
  exists v; auto.
Qed.

(** The defining equation of the retry loop, in the shape of the
    source's try / catch. *)
Lemma runLifecycleCommand_eq containerName port type cause retryCount s :
  runLifecycleCommand env containerName port type cause retryCount s =
  match run env (docker_exec containerName port type cause) s with
  | (Ok r, s1) => (Ok r, s1)
  | (Throw error, s1) =>
      if is_postStart type && (retryCount <? 6) then
        let s2 :=
          log DEBUG
            [LString ("retriable " +:+ hook_name type +:+ " error");
             LObject [("retryCount", VPrim (PNumber retryCount));
                      ("message", VPrim (get (value_of error) "message"))]]
            s1 in
        let s3 :=
          sleep (exponentialBackoff env (retryCount + 1) 2 50 1150 50 s2) s2 in
        runLifecycleCommand env containerName port type cause
          (retryCount + 1) s3
      else
        (Throw (Error (hook_name type +:+ " command failed after "
                       +:+ string_of_Z (retryCount - 1) +:+ " retries")),
         log ERROR
           [LString ("final " +:+ hook_name type +:+ " error");
            LObject [("message", VPrim (get (value_of error) "message"))]]
           s1)
  end.
Proof.
  simp runLifecycleCommand.
  destruct (run env (docker_exec containerName port type cause) s)
    as [[r|error] s1]; simpl.
  - reflexivity.
  - destruct (is_postStart type && (retryCount <? 6)); reflexivity.
Qed.

Lemma runLifecycleCommand_trace containerName port type cause retryCount s :
  exists tr,
    emits s tr
      (snd (runLifecycleCommand env containerName port type cause retryCount s))
    /\ delivery_trace env containerName port type cause retryCount tr
         (fst (runLifecycleCommand env containerName port type cause
                 retryCount s)).
Proof.
  remember (Z.to_nat (6 - retryCount)) as fuel eqn:Hfuel.
  revert retryCount s Hfuel.
  induction fuel as [fuel IH] using lt_wf_ind. intros retryCount s Hfuel.
  rewrite runLifecycleCommand_eq.
  destruct (run env (docker_exec containerName port type cause) s)
    as [[r|error] s1] eqn:Hrun.
  - apply run_resolved in Hrun as [_ ->]. eexists. split.
    + apply emits_record.
    + constructor.
  - apply run_rejected in Hrun as (v & -> & _ & ->).
    destruct (is_postStart type && (retryCount <? 6)) eqn:Hretry.
    + apply andb_prop in Hretry as [Htype Hlt%Z.ltb_lt].
      destruct type; [|discriminate]. cbv zeta.
      match goal with
      | |- context [runLifecycleCommand _ _ _ _ _ _ ?s3] =>
          destruct (IH (Z.to_nat (6 - (retryCount + 1))) ltac:(lia)
                       (retryCount + 1) s3 eq_refl) as (tr & Hemits & Htr)
      end.
      eexists. split.
      * eapply emits_trans; [|exact Hemits].
        eapply emits_trans; [apply emits_record|].
        eapply emits_trans; apply emits_record.
      * simpl. eapply retried; auto.
    + eexists. split.
      * eapply emits_trans; apply emits_record.
      * simpl. apply gave_up. exact Hretry.
Qed.

(** *** What a delivery trace contains *)

Section DeliveryTrace.

Context {containerName : string} {port : jsnum} {type : HookType}
        {cause : string}.

Local Abbreviation delivery := (delivery_trace env containerName port type cause).

Lemma delivery_only_requests retryCount tr res :
  delivery retryCount tr res ->
  count is_port_discovery tr = 0%nat
  /\ count is_runtime_command tr = 0%nat.
Proof.
  induction 1 as [rc r|rc v args s2 tr res _ _ _ [IH1 IH2]|rc v args _];
    autorewrite with trace_rw; simpl; auto.
Qed.

Lemma delivery_attempts retryCount tr res :
  delivery retryCount tr res ->
  count is_delivery tr = S (length (sleeps tr)).
Proof.
  induction 1; autorewrite with trace_rw; simpl; auto.
Qed.

Lemma delivery_sleeps_bound retryCount tr res :
  delivery retryCount tr res ->
  (length (sleeps tr) <= Z.to_nat (6 - retryCount))%nat.
Proof.
  induction 1; simpl; lia.
Qed.

Lemma delivery_answered_once retryCount tr res :
  delivery retryCount tr res ->
  count (is_delivered type) tr = match res with Ok _ => 1 | Throw _ => 0 end%nat.
Proof.
  induction 1; autorewrite with trace_rw; simpl; auto.
  rewrite bool_decide_true by reflexivity. reflexivity.
Qed.


(** A postStart delivery that fails has used all its retries, and its
    error is the one built at [retryCount = 6]. *)
Lemma delivery_exhausted retryCount tr e :
  type = postStart ->
  retryCount <= 6 ->
  delivery retryCount tr (Throw e) ->
  e = Error (final_message postStart 6)
  /\ length (sleeps tr) = Z.to_nat (6 - retryCount).
Proof.
  intros Htype Hle H. remember (Throw e) as res eqn:Hres.
  induction H as [rc r|rc v args s2 tr res _ Hlt _ IH|rc v args Hstop].
  - discriminate.
  - destruct (IH ltac:(lia) Hres) as [-> Hlen]. split; [reflexivity|].
    simpl. rewrite Hlen. lia.
  - subst type. simpl in Hstop. apply Z.ltb_ge in Hstop.
    assert (rc = 6) as -> by lia.
    injection Hres as <-. auto.
Qed.

End DeliveryTrace.

(** *** Port discovery and the two dispatchers *)

Lemma getHttpServerPort_eq containerName s :
  getHttpServerPort env containerName s =
  match execa env (history s) (docker_logs containerName) with
  | Rejected v =>
      (Throw (Thrown v),
       record_event (Exec (docker_logs containerName) (Rejected v)) s)
  | Resolved r =>
      let s2 :=
        log DEBUG [LResult r]
          (record_event (Exec (docker_logs containerName) (Resolved r)) s) in
      let port := Number (Regex.match_port (stdout r)) in
      if falsy port then (Throw (Error "failed to extract port from logs"), s2)
      else (Ok port, s2)
  end.
Proof.
  unfold getHttpServerPort, bind, run, logger_debug.
  destruct (execa env (history s) (docker_logs containerName)) as [r|v];
    cbn; [|reflexivity].
  destruct (falsy (Number (Regex.match_port (stdout r)))); reflexivity.
Qed.

Ltac emits_steps :=
  first
    [ apply emits_record
    | eassumption
    | eapply emits_trans;
      [ first [eassumption | apply emits_record] | emits_steps ] ].

Ltac dispatch_cases H containerName s :=
  unfold try_catch, bind in H; rewrite getHttpServerPort_eq in H;
  destruct (execa env (history s) (docker_logs containerName)) as [r|v];
  [ cbv zeta in H;
    destruct (falsy (Number (Regex.match_port (stdout r)))) eqn:Hport;
    [ cbn in H; injection H as <- <-; eexists; split;
      [ emits_steps | cbn [fst snd app]; apply port_missing; assumption ]
    | match type of H with
      | context [runLifecycleCommand env ?c ?p ?t ?k 0 ?s1] =>
          destruct (runLifecycleCommand_trace c p t k 0 s1)
            as (tr & Hemits & Htr);
          destruct (runLifecycleCommand env c p t k 0 s1) as [[r'|e] s2];
          simpl in Hemits, Htr; cbn in H; injection H as <- <-;
          eexists; (split; [ emits_steps | ])
      end;
      cbn [fst snd app];
      [ apply hook_answered; assumption
      | eapply hook_failed; eassumption ] ]
  | cbn in H; injection H as <- <-; eexists; split;
    [ emits_steps | cbn [fst snd app]; apply logs_unavailable ] ].

Lemma sendPostStart_trace containerName s :
  exists tr,
    emits s tr (snd (sendPostStart env containerName s))
    /\ dispatch_trace env containerName postStart "restore" tr
         (fst (sendPostStart env containerName s)).
Proof.
  destruct (sendPostStart env containerName s) as [res s'] eqn:H.
  unfold sendPostStart in H. dispatch_cases H containerName s.
Qed.

Lemma sendPreStop_trace containerName s :
  exists tr,
    emits s tr (snd (sendPreStop env containerName s))
    /\ dispatch_trace env containerName preStop "terminate" tr
         (fst (sendPreStop env containerName s)).
Proof.
  destruct (sendPreStop env containerName s) as [res s'] eqn:H.
  unfold sendPreStop in H. dispatch_cases H containerName s.
Qed.

(** *** What a dispatch trace contains *)

Section DispatchTrace.

Context {containerName : string} {type : HookType} {cause : string}.

Local Abbreviation dispatch := (dispatch_trace env containerName type cause).

(** A dispatch opens with its single snapshot of the log. *)
Lemma dispatch_one_snapshot tr res :
  dispatch tr res ->
  count is_port_discovery tr = 1%nat
  /\ count is_runtime_command tr = 0%nat
  /\ exists o tl, tr = Exec (docker_logs containerName) o :: tl.
Proof.
  destruct 1 as [v args|r args _|r tr r' _ Htr|r tr e args _ Htr].
  1, 2: repeat split; eauto.
  all: destruct (delivery_only_requests _ _ _ Htr) as [Hd Hr];
    autorewrite with trace_rw; rewrite Hd, Hr; simpl; eauto.
Qed.

Lemma dispatch_result tr res :
  dispatch tr res ->
  (res = Ok tt /\ count (is_delivered type) tr = 1%nat)
  \/ (res = Throw (hook_error type) /\ count (is_delivered type) tr = 0%nat).
Proof.
  destruct 1 as [v args|r args _|r tr r' _ Htr|r tr e args _ Htr].
  1, 2: right; split; reflexivity.
  all: pose proof (delivery_answered_once _ _ _ Htr) as Hn;
    [> left | right]; (split; [reflexivity|]);
    autorewrite with trace_rw; rewrite Hn; reflexivity.
Qed.

Lemma dispatch_attempts tr res :
  dispatch tr res ->
  (count is_delivery tr <= 7)%nat /\ (length (sleeps tr) <= 6)%nat.
Proof.
  destruct 1 as [v args|r args _|r tr r' _ Htr|r tr e args _ Htr].
  1, 2: autorewrite with trace_rw; simpl; split; lia.
  all: pose proof (delivery_attempts _ _ _ Htr) as Ha;
    pose proof (delivery_sleeps_bound _ _ _ Htr) as Hb;
    autorewrite with trace_rw; simpl; rewrite Ha, sleeps_app, length_app;
    simpl; change (Z.to_nat (6 - 0)) with 6%nat in Hb; lia.
Qed.


End DispatchTrace.

(** *** The capability probe *)

(** [#initialize] never throws, only probes and logs, leaves the instance
    initialized, and does nothing at all on an initialized instance. *)
Lemma initialize_spec s :
  exists tr s1,
    initialize env forceSimulate s
    = (Ok (getInitializeReturn forceSimulate s1), s1)
    /\ history s1 = history s ++ tr
    /\ Forall (fun ev => is_probe ev = true) tr
    /\ initialized s1 = true
    /\ (initialized s = true -> s1 = s).
Proof.
  unfold initialize, bind, get_state.
  destruct (initialized s) eqn:Hinit.
  { exists [], s. rewrite app_nil_r. repeat split; auto. }
  unfold attempt, bind, run, logger, set_initialized, set_canCheckpoint,
    get_state, ret, log.
  destruct forceSimulate; cbn;
    repeat match goal with
      | |- context [execa env ?h ?c] => destruct (execa env h c); cbn
      end;
    eexists; eexists;
    (split; [reflexivity|]); cbn;
    (split; [rewrite <- ?app_assoc; reflexivity|]);
    (split; [repeat constructor|]);
    (split; [reflexivity | discriminate]).
Qed.

Lemma probe_no_traffic tr :
  Forall (fun ev => is_probe ev = true) tr ->
  count is_hook_traffic tr = 0%nat
  /\ count is_port_discovery tr = 0%nat
  /\ count is_runtime_command tr = 0%nat
  /\ count is_unpause tr = 0%nat
  /\ count is_checkpoint_start tr = 0%nat.
Proof.
  induction 1 as [|ev tr Hev _ (IH1 & IH2 & IH3 & IH4 & IH5)].
  - repeat split.
  - autorewrite with trace_rw. rewrite IH1, IH2, IH3, IH4, IH5.
    destruct ev as [[] o|l args|ms]; try discriminate; repeat split.
Qed.

(** *** Restore *)

Lemma restore_spec opts s :
  exists probe s1 tr,
    initialize env forceSimulate s
    = (Ok (getInitializeReturn forceSimulate s1), s1)
    /\ Forall (fun ev => is_probe ev = true) probe
    /\ history (snd (restore env forceSimulate opts s))
       = history s ++ probe ++ tr
    /\ restore_trace env opts (willSimulate (getInitializeReturn forceSimulate s1))
         tr (fst (restore env forceSimulate opts s)).
Proof.
  destruct (initialize_spec s) as (probe & s1 & Hinit & Hhist & Hprobe & _).
  exists probe, s1.
  destruct (restore env forceSimulate opts s) as [res s'] eqn:H.
  unfold restore, bind in H. rewrite Hinit in H. cbn [get_state] in H.
  cbn [willSimulate getInitializeReturn fst snd].
  destruct (negb (canCheckpoint s1) || forceSimulate);
    unfold logger, logger_debug, run, throw in H; cbn in H;
    match type of H with
    | context [execa env ?h ?c] =>
        destruct (execa env h c) as [r|v] eqn:Hexec
    end.
  2, 4: injection H as <- <-; eexists;
    (split; [exact Hinit|]); (split; [assumption|]);
    cbn; rewrite Hhist, <- ?app_assoc;
    (split; [reflexivity|]);
    match goal with
    | |- restore_trace env ?o ?b _ _ => exact (runtime_rejected env o b _ v Hexec)
    end.
  all: destruct (exitCode r =? 0) eqn:Hexit; cbn in H.
  2, 4: apply Z.eqb_neq in Hexit; injection H as <- <-; eexists;
    (split; [exact Hinit|]); (split; [assumption|]);
    cbn; rewrite Hhist, <- ?app_assoc;
    (split; [reflexivity|]);
    match goal with
    | |- restore_trace env ?o ?b _ _ => exact (runtime_nonzero env o b _ r Hexec Hexit)
    end.
  all: apply Z.eqb_eq in Hexit;
    match type of H with
    | sendPostStart env ?c ?s2 = _ =>
        destruct (sendPostStart_trace c s2) as (tr & (Hemits & _ & _) & Htr);
        rewrite H in Hemits, Htr; cbn in Hemits, Htr
    end;
    eexists; (split; [exact Hinit|]); (split; [assumption|]);
    rewrite Hemits, Hhist, <- ?app_assoc;
    (split; [reflexivity|]);
    match goal with
    | |- restore_trace env ?o ?b _ _ =>
        exact (runtime_ok env o b _ r tr res Hexec Hexit Htr)
    end.
Qed.

(** *** Index and create *)

Variables COORDINATOR_PORT COORDINATOR_HOST OTEL_EXPORTER_OTLP_ENDPOINT : string.

Local Abbreviation index_ :=
  (index env forceSimulate COORDINATOR_PORT COORDINATOR_HOST
     OTEL_EXPORTER_OTLP_ENDPOINT).
Local Abbreviation create_ :=
  (create env forceSimulate COORDINATOR_PORT COORDINATOR_HOST
     OTEL_EXPORTER_OTLP_ENDPOINT).




End Traces.

Lemma strip_prefix_app p rest : Regex.strip_prefix p (p +:+ rest) = Some rest.
Proof.
  induction p as [|a p IH]; simpl.
  - now destruct rest.
  - now rewrite Ascii.eqb_refl.
Qed.

Lemma take_digits_app ds post :
  all_digits ds = true ->
  starts_with_digit post = false ->
  Regex.take_digits (ds +:+ post) = ds.
Proof.
  intros Hds Hpost. induction ds as [|c ds IH]; simpl in *.
  - destruct post as [|c post]; simpl in *; [reflexivity|now rewrite Hpost].
  - apply andb_prop in Hds as [-> Hds]. now rewrite IH.
Qed.

Lemma match_here_occurs s ds post :
  occurs_at s EmptyString ds post -> Regex.match_here s = Some ds.
Proof.
  intros (-> & Hne & Hds & Hpost). unfold Regex.match_here.
  change (EmptyString +:+ ?x) with x.
  rewrite strip_prefix_app, take_digits_app by assumption.
  destruct ds; congruence.
Qed.

Lemma strip_prefix_Some p s rest :
  Regex.strip_prefix p s = Some rest -> s = p +:+ rest.
Proof.
  revert s. induction p as [|a p IH]; intros s H; simpl in *.
  - destruct s; now injection H as <-.
  - destruct s as [|b s]; [discriminate|].
    destruct (Ascii.eqb a b) eqn:Hab; [|discriminate].
    apply Ascii.eqb_eq in Hab. subst b.
    change (String a p +:+ rest) with (String a (p +:+ rest)).
    f_equal. now apply IH.
Qed.

Lemma match_here_Some s ds :
  Regex.match_here s = Some ds -> pattern_at s EmptyString.
Proof.
  unfold Regex.match_here. intros H.
  destruct (Regex.strip_prefix Regex.announcement s) as [rest|] eqn:Hstrip;
    [|discriminate].
  apply strip_prefix_Some in Hstrip.
  destruct rest as [|d rest]; [discriminate|]. simpl in H.
  destruct (is_digit d) eqn:Hd; [|discriminate].
  exists d, rest. split; assumption.
Qed.

Lemma match_port_eq s :
  Regex.match_port s =
  match Regex.match_here s with
  | Some ds => Some ds
  | None =>
      match s with
      | EmptyString => None
      | String _ s' => Regex.match_port s'
      end
  end.
Proof. destruct s; reflexivity. Qed.

Lemma pattern_at_shift c s pre :
  pattern_at s pre -> pattern_at (String c s) (String c pre).
Proof. intros (d & rest & Hd & ->). now exists d, rest. Qed.

(** [match] finds the leftmost occurrence and captures its digits. *)
Lemma match_port_first s pre ds post :
  first_occurrence s pre ds post -> Regex.match_port s = Some ds.
Proof.
  revert s. induction pre as [|c pre IH]; intros s [Hocc Hmin].
  - rewrite match_port_eq. now rewrite (match_here_occurs _ _ _ Hocc).
  - rewrite match_port_eq.
    destruct (Regex.match_here s) as [ds'|] eqn:Hhere.
    + apply match_here_Some, Hmin in Hhere. simpl in Hhere. lia.
    + destruct Hocc as (-> & Hne & Hds & Hpost). simpl.
      apply IH. split.
      * repeat split; assumption.
      * intros pre' Hpat. apply (pattern_at_shift c) in Hpat.
        specialize (Hmin _ Hpat). simpl in Hmin. lia.
Qed.

(** Without an occurrence, [match] yields [null]. *)
Lemma match_port_none s : no_occurrence s -> Regex.match_port s = None.
Proof.
  induction s as [|c s IH]; intros Hno.
  - reflexivity.
  - rewrite match_port_eq.
    destruct (Regex.match_here (String c s)) as [ds|] eqn:Hhere.
    + apply match_here_Some in Hhere. now apply Hno in Hhere.
    + apply IH. intros pre Hpat. apply (Hno (String c pre)).
      now apply pattern_at_shift.
Qed.

(** ** Numbers *)

Lemma is_digit_value c : is_digit c = true -> 0 <= digit_value c <= 9.
Proof.
  unfold is_digit, digit_value. intros [H1 H2]%andb_prop.
  apply N.leb_le in H1, H2. lia.
Qed.

Lemma decimal_value_from_nonneg ds acc :
  all_digits ds = true -> 0 <= acc -> 0 <= decimal_value_from acc ds.
Proof.
  revert acc. induction ds as [|c ds IH]; simpl; intros acc Hds Hacc.
  - assumption.
  - apply andb_prop in Hds as [Hc Hds]. apply IH; [assumption|].
    apply is_digit_value in Hc. lia.
Qed.

Lemma decimal_value_nonneg ds : all_digits ds = true -> 0 <= decimal_value ds.
Proof. intros H. now apply decimal_value_from_nonneg. Qed.

(** Below 2^53 a double holds the integer itself. *)
Lemma to_double_exact z : z < 2 ^ 53 -> to_double z = Num z.
Proof.
  intros H. unfold to_double. apply Z.ltb_lt in H. now rewrite H.
Qed.

(** Rounding never turns a positive integer into zero or NaN. *)
Lemma to_double_truthy z : 0 < z -> falsy (to_double z) = false.
Proof.
  intros Hz. unfold to_double.
  destruct (z <? 2 ^ 53) eqn:Hsmall.
  - simpl. apply Z.eqb_neq. lia.
  - apply Z.ltb_ge in Hsmall.
    assert (53 <= Z.log2 z) as Hlog.
    { change 53 with (Z.log2 (2 ^ 53)). now apply Z.log2_le_mono. }
    pose proof (Z.log2_spec z Hz) as [Hlow _].
    set (e := Z.log2 z - 52) in *.
    assert (0 < 2 ^ e) as Hpow by (apply Z.pow_pos_nonneg; lia).
    assert (2 ^ e <= z) as Hle.
    { etransitivity; [|exact Hlow]. apply Z.pow_le_mono_r; lia. }
    assert (0 < z / 2 ^ e) as Hq by (apply Z.div_str_pos; lia).
    cbv zeta.
    match goal with
    | |- context [if ?c then z / 2 ^ e + 1 else z / 2 ^ e] =>
        set (q' := if c then z / 2 ^ e + 1 else z / 2 ^ e);
        assert (0 < q') as Hq' by (subst q'; destruct c; lia)
    end.
    destruct (2 ^ 1024 <=? q' * 2 ^ e); [reflexivity|].
    simpl. apply Z.eqb_neq. nia.
Qed.

Lemma falsy_Number_digits ds :
  all_digits ds = true ->
  falsy (Number (Some ds)) = (decimal_value ds =? 0).
Proof.
  intros Hds. pose proof (decimal_value_nonneg ds Hds) as Hnn. simpl.
  destruct (decimal_value ds =? 0) eqn:Hz.
  - apply Z.eqb_eq in Hz. now rewrite Hz.
  - apply Z.eqb_neq in Hz. apply to_double_truthy. lia.
Qed.

(** ** Backoff arithmetic *)



(** ** Counting in traces *)

Lemma count_zero_In p (tr : list event) ev :
  count p tr = 0%nat -> In ev tr -> p ev = false.
Proof.
  intros H Hin. apply count_zero_Forall in H.
  rewrite List.Forall_forall in H. now apply H.
Qed.

Lemma count_runtime_split (tr : list event) :
  count is_runtime_command tr = 0%nat ->
  count is_unpause tr = 0%nat /\ count is_checkpoint_start tr = 0%nat.
Proof.
  intros H. apply count_zero_Forall in H.
  split; apply count_zero_Forall; eapply Forall_impl; try exact H;
    intros ev Hev; unfold is_runtime_command in Hev;
    now apply orb_false_elim in Hev.
Qed.

Lemma count_hook_traffic (tr : list event) :
  count is_hook_traffic tr
  = (count is_port_discovery tr + count is_delivery tr)%nat.
Proof.
  induction tr as [|ev tr IH]; [reflexivity|].
  rewrite !count_cons, IH.
  destruct ev as [[] o|l args|ms]; simpl; lia.
Qed.

Lemma runtime_success_is_runtime ev :
  runtime_success ev = true -> is_runtime_command ev = true.
Proof.
  intros H. destruct ev as [[] [r|v]|l args|ms]; simpl in H;
    try discriminate; reflexivity.
Qed.

(** In a trace with a single runtime command, a runtime command found in
    it is that one. *)
Lemma only_runtime_event pre ev0 post ev :
  count is_runtime_command pre = 0%nat ->
  count is_runtime_command post = 0%nat ->
  In ev (pre ++ ev0 :: post) ->
  is_runtime_command ev = true ->
  ev = ev0.
Proof.
  intros Hpre Hpost Hin Hev. apply in_app_or in Hin as [Hin|[Heq|Hin]].
  - apply (count_zero_In _ _ _ Hpre) in Hin. congruence.
  - now symmetry.
  - apply (count_zero_In _ _ _ Hpost) in Hin. congruence.
Qed.

(** ** Restore: the runtime command and the PostStart dispatch *)

Section RestoreTrace.

Variable env : Env.
Variable opts : TaskOperationsRestoreOptions.
Variable simulate : bool.

Lemma restore_prelude_quiet :
  count is_runtime_command (restore_prelude simulate) = 0%nat
  /\ count is_hook_traffic (restore_prelude simulate) = 0%nat.
Proof. destruct simulate; split; reflexivity. Qed.

Lemma runtime_command_is_runtime o :
  is_runtime_command (Exec (runtime_command opts simulate) o) = true
  /\ is_hook_traffic (Exec (runtime_command opts simulate) o) = false
  /\ is_unpause (Exec (runtime_command opts simulate) o) = simulate
  /\ is_checkpoint_start (Exec (runtime_command opts simulate) o)
     = negb simulate.
Proof. destruct simulate; repeat split. Qed.

(** The three outcomes of the runtime command, read off the trace. *)
Lemma restore_trace_cases probe tr res :
  count is_runtime_command probe = 0%nat ->
  count is_hook_traffic probe = 0%nat ->
  restore_trace env opts simulate tr res ->
  exists pre o post,
    probe ++ tr = pre ++ Exec (runtime_command opts simulate) o :: post
    /\ count is_runtime_command pre = 0%nat
    /\ count is_hook_traffic pre = 0%nat
    /\ count is_runtime_command post = 0%nat
    /\ (exists h, execa env h (runtime_command opts simulate) = o)
    /\ ((runtime_success (Exec (runtime_command opts simulate) o) = true
         /\ count is_port_discovery post = 1%nat
         /\ ((res = Ok tt /\ count (is_delivered postStart) post = 1%nat)
             \/ res = Throw (hook_error postStart)))
        \/ (runtime_success (Exec (runtime_command opts simulate) o) = false
            /\ count is_hook_traffic post = 0%nat
            /\ ((exists v, o = Rejected v /\ res = Throw (Thrown v))
                \/ (exists r, o = Resolved r /\ exitCode r <> 0
                              /\ res = Throw (guard_error simulate))))).
Proof.
  intros Hp1 Hp2 Htr.
  destruct restore_prelude_quiet as [Hq1 Hq2].
  destruct Htr as [h v Hexec|h r Hexec Hexit|h r tr res Hexec Hexit Hd];
    rewrite app_assoc;
    eexists; eexists; eexists; (split; [reflexivity|]);
    autorewrite with trace_rw; rewrite Hp1, Hp2, Hq1, Hq2;
    (split; [reflexivity|]); (split; [reflexivity|]).
  - split; [reflexivity|]. split; [eauto|]. right.
    split; [destruct simulate; reflexivity|]. split; [reflexivity|].
    left. eauto.
  - split; [reflexivity|]. split; [eauto|]. right.
    apply Z.eqb_neq in Hexit as Hexit'.
    split; [destruct simulate; simpl; exact Hexit'|].
    split; [reflexivity|]. right. eauto.
  - destruct (dispatch_one_snapshot _ _ _ Hd) as (Hone & Hnone & _).
    simpl. split; [exact Hnone|]. split; [eauto|]. left.
    apply Z.eqb_eq in Hexit as Hexit'.
    split; [destruct simulate; simpl; exact Hexit'|].
    split; [exact Hone|].
    destruct (dispatch_result _ _ _ Hd) as [[-> Hn]|[-> _]]; [left|right];
      auto.
Qed.

End RestoreTrace.

(** C1.  A restore that returns normally has run its runtime command to a
    successful end and has delivered PostStart exactly once.  Whenever the
    runtime command (unpause in simulated mode, start-from-checkpoint in
    real mode) reported success, the trace splits around that event: no
    dispatcher traffic before it and exactly one PostStart dispatch (one
    log snapshot opening it) after it.  Whenever the runtime command
    failed, the trace holds no dispatcher traffic at all and the restore
    does not return normally. *)
Theorem restore_dispatches_postStart_once_after_runtime
    (env : Env) (forceSimulate : bool)
    (opts : TaskOperationsRestoreOptions) (s : state) :
  let res := fst (restore env forceSimulate opts s) in
  let tr := new_events s (snd (restore env forceSimulate opts s)) in
  (res = Ok tt ->
     exists ev, In ev tr /\ runtime_success ev = true
                /\ count (is_delivered postStart) tr = 1%nat)
  /\ (forall ev, In ev tr -> runtime_success ev = true ->
        exists pre post,
          tr = pre ++ ev :: post
          /\ count is_hook_traffic pre = 0%nat
          /\ count is_port_discovery post = 1%nat
          /\ count is_port_discovery tr = 1%nat)
  /\ (forall ev, In ev tr -> is_runtime_command ev = true ->
        runtime_success ev = false ->
        count is_hook_traffic tr = 0%nat /\ res <> Ok tt).
Proof.
  intros res tr.
  destruct (restore_spec env forceSimulate opts s)
    as (probe & s1 & tr' & _ & Hprobe & Hhist & Htr).
  apply new_events_app in Hhist. fold tr in Hhist. fold res in Htr.
  destruct (probe_no_traffic probe Hprobe) as (Hp1 & _ & Hp2 & _).
  destruct (restore_trace_cases env opts _ probe tr' res Hp2 Hp1 Htr)
    as (pre & o & post & Hsplit & Hpre1 & Hpre2 & Hpost & _ & Hcases).
  rewrite <- Hhist in Hsplit. clear Hhist Htr.
  set (ev0 := Exec (runtime_command opts _) o) in *.
  assert (Hpd : count is_port_discovery pre = 0%nat).
  { pose proof (count_hook_traffic pre). lia. }
  assert (Hev0 : is_port_discovery ev0 = false /\ is_hook_traffic ev0 = false).
  { subst ev0. destruct (willSimulate _); split; reflexivity. }
  destruct Hev0 as [Hev0 Hev0'].
  split; [|split].
  - intros Hok. destruct Hcases as [(Hsucc & _ & [[_ Hn]|Hres])|(_ & _ & Hres)].
    + exists ev0. split; [rewrite Hsplit; apply in_elt|].
      split; [assumption|]. rewrite Hsplit.
      autorewrite with trace_rw.
      assert (count (is_delivered postStart) pre = 0%nat) as ->.
      { apply count_zero_Forall. apply count_zero_Forall in Hpre2.
        eapply Forall_impl; [exact Hpre2|].
        intros ev0' H0. destruct ev0' as [[] [r|v]|l args|ms];
          try reflexivity; cbn in H0; discriminate. }
      rewrite Hn. subst ev0. destruct (willSimulate _); reflexivity.
    + congruence.
    + destruct Hres as [(v & _ & Hres)|(r & _ & _ & Hres)]; congruence.
  - intros ev Hin Hsucc.
    assert (ev = ev0) as ->.
    { rewrite Hsplit in Hin.
      apply (only_runtime_event pre ev0 post ev Hpre1 Hpost Hin).
      now apply runtime_success_is_runtime. }
    destruct Hcases as [(_ & Hone & _)|(Hfail & _)]; [|congruence].
    exists pre, post. repeat split; try assumption.
    rewrite Hsplit. autorewrite with trace_rw. rewrite Hpd, Hev0, Hone.
    reflexivity.
  - intros ev Hin Hrt Hfail.
    assert (ev = ev0) as ->.
    { rewrite Hsplit in Hin.
      exact (only_runtime_event pre ev0 post ev Hpre1 Hpost Hin Hrt). }
    destruct Hcases as [(Hsucc & _)|(_ & Hquiet & Hres)]; [congruence|].
    split.
    + rewrite Hsplit. autorewrite with trace_rw.
      rewrite Hpre2, Hev0', Hquiet. reflexivity.
    + destruct Hres as [(v & _ & ->)|(r & _ & _ & ->)]; discriminate.
Qed.

Ltac find_event := repeat first [left; reflexivity | right].

(** A healthy simulated restore of run_9 delivers PostStart once; when the
    unpause is rejected nothing is dispatched. *)
Lemma restore_dispatches_postStart_once_after_runtime_witness :
  (exists ev,
      In ev (new_events Scenario.fresh
               (snd (restore Scenario.healthy true Scenario.run_9
                       Scenario.fresh)))
      /\ runtime_success ev = true
      /\ count (is_delivered postStart)
           (new_events Scenario.fresh
              (snd (restore Scenario.healthy true Scenario.run_9
                      Scenario.fresh))) = 1%nat)
  /\ (count is_hook_traffic
        (new_events Scenario.fresh
           (snd (restore
                   (Scenario.with_runtime (Rejected (Scenario.exit_failure 1)))
                   true Scenario.run_9 Scenario.fresh))) = 0%nat
      /\ fst (restore
                (Scenario.with_runtime (Rejected (Scenario.exit_failure 1)))
                true Scenario.run_9 Scenario.fresh) <> Ok tt).
Proof.
  split.
  - apply (proj1 (restore_dispatches_postStart_once_after_runtime
                    Scenario.healthy true Scenario.run_9 Scenario.fresh)).
    vm_compute. reflexivity.
  - apply (proj2 (proj2 (restore_dispatches_postStart_once_after_runtime
                           (Scenario.with_runtime
                              (Rejected (Scenario.exit_failure 1)))
                           true Scenario.run_9 Scenario.fresh))
             (Exec (docker_unpause "task-run-run_9")
                   (Rejected (Scenario.exit_failure 1)))).
    + vm_compute. find_event.
    + reflexivity.
    + reflexivity.
Defined.

(** ** Restore: one runtime command, chosen by the mode *)

Lemma restore_trace_runtime_counts env opts simulate tr res :
  restore_trace env opts simulate tr res ->
  count is_unpause tr = (if simulate then 1 else 0)%nat
  /\ count is_checkpoint_start tr = (if simulate then 0 else 1)%nat
  /\ exists o, In (Exec (runtime_command opts simulate) o) tr.
Proof.
  intros Htr.
  destruct (restore_trace_cases env opts simulate [] tr res eq_refl eq_refl Htr)
    as (pre & o & post & Hsplit & Hpre & _ & Hpost & _).
  simpl in Hsplit. subst tr.
  apply count_runtime_split in Hpre as [Hpre1 Hpre2].
  apply count_runtime_split in Hpost as [Hpost1 Hpost2].
  destruct (runtime_command_is_runtime opts simulate o) as (_ & _ & Hu & Hc).
  autorewrite with trace_rw.
  rewrite Hpre1, Hpre2, Hpost1, Hpost2, Hu, Hc.
  repeat split; [destruct simulate; reflexivity..|].
  exists o. apply in_elt.
Qed.

(** C4.  [#initialize] returns [willSimulate = !canCheckpoint ||
    forceSimulate].  When it is true, restore issues exactly one unpause
    command, on the run container, and no start-from-checkpoint command;
    when it is false, restore issues exactly one start-from-checkpoint
    command, with the supplied checkpoint reference on the run container,
    and no unpause command. *)
Theorem restore_runtime_command_by_mode
    (env : Env) (forceSimulate : bool)
    (opts : TaskOperationsRestoreOptions) (s : state) :
  let tr := new_events s (snd (restore env forceSimulate opts s)) in
  let containerName := getRunContainerName (restore_runId opts) in
  exists ir s1,
    initialize env forceSimulate s = (Ok ir, s1)
    /\ willSimulate ir = negb (ret_canCheckpoint ir) || forceSimulate
    /\ if willSimulate ir
       then count is_unpause tr = 1%nat
            /\ (exists o, In (Exec (docker_unpause containerName) o) tr)
            /\ count is_checkpoint_start tr = 0%nat
       else count is_checkpoint_start tr = 1%nat
            /\ (exists o,
                   In (Exec (docker_start (restore_checkpointRef opts)
                               containerName) o) tr)
            /\ count is_unpause tr = 0%nat.
Proof.
  intros tr containerName.
  destruct (restore_spec env forceSimulate opts s)
    as (probe & s1 & tr' & Hinit & Hprobe & Hhist & Htr).
  apply new_events_app in Hhist. fold tr in Hhist.
  destruct (probe_no_traffic probe Hprobe) as (_ & _ & _ & Hp1 & Hp2).
  apply restore_trace_runtime_counts in Htr as (Hu & Hc & o & Hin).
  exists (getInitializeReturn forceSimulate s1), s1.
  split; [exact Hinit|]. split; [reflexivity|].
  rewrite Hhist. autorewrite with trace_rw. rewrite Hp1, Hp2, Hu, Hc.
  unfold runtime_command in Hin. fold containerName in Hin.
  destruct (willSimulate (getInitializeReturn forceSimulate s1));
    (split; [reflexivity|]); (split; [|reflexivity]);
    exists o; apply in_or_app; right; exact Hin.
Qed.

(** ** Restore: the exit-code guards *)




(** Without that assumption the guards are live: a runner that resolves
    with exit code 1 makes restore throw the guard's error. *)
Example restore_exit_guard_fires :
  fst (restore (Scenario.with_runtime (Resolved (Scenario.exited 1)))
         true Scenario.run_9 Scenario.fresh)
  = Throw (Error "docker unpause command failed").
Proof. vm_compute. reflexivity. Qed.

(** ** The retry budget of PostStart *)

(** C3.  A PostStart delivery makes one attempt more than it sleeps, at
    most 7 attempts and 6 sleeps.  When it fails, all 7 attempts were made
    and all 6 retries were slept for, and the terminal error names the
    hook and reads "after 5 retries": the source prints [retryCount - 1]
    at [retryCount = 6]. *)
Theorem postStart_retry_budget
    (env : Env) (containerName : string) (port : jsnum) (cause : string)
    (s : state) :
  let res :=
    fst (runLifecycleCommand env containerName port postStart cause 0 s) in
  let tr :=
    new_events s
      (snd (runLifecycleCommand env containerName port postStart cause 0 s)) in
  count is_delivery tr = S (length (sleeps tr))
  /\ (count is_delivery tr <= 7)%nat
  /\ (length (sleeps tr) <= 6)%nat
  /\ forall e, res = Throw e ->
       e = Error "postStart command failed after 5 retries"
       /\ count is_delivery tr = 7%nat
       /\ length (sleeps tr) = 6%nat.
Proof.
  intros res tr.
  destruct (runLifecycleCommand_trace env containerName port postStart cause 0 s)
    as (tr' & Hemits & Htr).
  apply emits_new_events in Hemits. fold tr in Hemits. fold res in Htr.
  subst tr'.
  pose proof (delivery_attempts env _ _ _ Htr) as Ha.
  pose proof (delivery_sleeps_bound env _ _ _ Htr) as Hb.
  change (Z.to_nat (6 - 0)) with 6%nat in Hb.
  repeat split; try lia.
  all: rewrite H in Htr;
    destruct (delivery_exhausted env 0 tr e eq_refl ltac:(lia) Htr)
      as [He Hlen]; change (Z.to_nat (6 - 0)) with 6%nat in Hlen.
  - exact He.
  - lia.
  - exact Hlen.
Qed.

(** Seven rejected requests in a row: the error says 5 retries after 7
    attempts and 6 sleeps. *)
Lemma postStart_retry_budget_witness :
  Error "postStart command failed after 5 retries"
  = Error "postStart command failed after 5 retries"
  /\ count is_delivery
       (new_events Scenario.fresh
          (snd (runLifecycleCommand (Scenario.flaky 7 0) "task-run-run_9"
                  (Num 4000) postStart "restore" 0 Scenario.fresh))) = 7%nat
  /\ length
       (sleeps
          (new_events Scenario.fresh
             (snd (runLifecycleCommand (Scenario.flaky 7 0) "task-run-run_9"
                     (Num 4000) postStart "restore" 0 Scenario.fresh))))
     = 6%nat.
Proof.
  apply (postStart_retry_budget (Scenario.flaky 7 0) "task-run-run_9"
           (Num 4000) "restore" Scenario.fresh).
  vm_compute. reflexivity.
Defined.

(** Six failures followed by a success: the seventh attempt is answered. *)
Example postStart_seventh_attempt :
  fst (sendPostStart (Scenario.flaky 6 0) "task-run-run_9" Scenario.fresh)
  = Ok tt
  /\ count is_delivery
       (new_events Scenario.fresh
          (snd (sendPostStart (Scenario.flaky 6 0) "task-run-run_9"
                  Scenario.fresh))) = 7%nat.
Proof. vm_compute. split; reflexivity. Qed.

(** ** PreStop is attempted once *)

Lemma delivery_preStop_shape env containerName port cause retryCount tr res :
  delivery_trace env containerName port preStop cause retryCount tr res ->
  (exists r,
      tr = [Exec (docker_exec containerName port preStop cause) (Resolved r)]
      /\ res = Ok r)
  \/ (exists v args,
        tr = [Exec (docker_exec containerName port preStop cause) (Rejected v);
              Logged ERROR args]
        /\ res = Throw (Error (final_message preStop retryCount))).
Proof.
  destruct 1 as [rc r|rc v args s2 tr res Hpost _ _|rc v args _].
  - left. eauto.
  - discriminate.
  - right. eauto.
Qed.

Lemma dispatch_preStop_once env containerName cause tr res :
  dispatch_trace env containerName preStop cause tr res ->
  sleeps tr = []
  /\ (count is_delivery tr <= 1)%nat
  /\ forall c v,
       In (Exec c (Rejected v)) tr ->
       is_delivery (Exec c (Rejected v)) = true ->
       res = Throw (hook_error preStop)
       /\ count is_delivery tr = 1%nat
       /\ count (is_delivered preStop) tr = 0%nat.
Proof.
  destruct 1 as [v args|r args _|r tr r' _ Htr|r tr e args _ Htr].
  - split; [reflexivity|]. split; [apply Nat.le_0_l|].
    intros c v' [H|[H|[]]] Hc; [injection H as <- <-|]; discriminate.
  - split; [reflexivity|]. split; [apply Nat.le_0_l|].
    intros c v' [H|[H|[H|[]]]] Hc; discriminate.
  - apply delivery_preStop_shape in Htr
      as [(r0 & -> & _)|(v & args & _ & [=])].
    split; [reflexivity|]. split; [apply Nat.le_refl|].
    intros c v' [H|[H|[H|[H|[]]]]] Hc; discriminate.
  - apply delivery_preStop_shape in Htr
      as [(r0 & _ & [=])|(v & args' & -> & _)].
    split; [reflexivity|]. split; [apply Nat.le_refl|].
    intros c v' Hin Hc. repeat split.
Qed.

(** C5.  A PreStop dispatch never sleeps and makes at most one delivery
    attempt; if that attempt is rejected the dispatch throws at once
    ("preStop command failed"), with exactly that one attempt and no
    answered request.  At the delivery layer, a rejected preStop request
    throws the terminal error immediately, whatever the retry counter,
    having emitted only the request and the final error log. *)
Theorem preStop_never_retried
    (env : Env) (containerName : string) (s : state) :
  let res := fst (sendPreStop env containerName s) in
  let tr := new_events s (snd (sendPreStop env containerName s)) in
  sleeps tr = []
  /\ (count is_delivery tr <= 1)%nat
  /\ (forall c v,
        In (Exec c (Rejected v)) tr ->
        is_delivery (Exec c (Rejected v)) = true ->
        res = Throw (Error "preStop command failed")
        /\ count is_delivery tr = 1%nat
        /\ count (is_delivered preStop) tr = 0%nat)
  /\ (forall port cause retryCount s0 v,
        execa env (history s0) (docker_exec containerName port preStop cause)
        = Rejected v ->
        fst (runLifecycleCommand env containerName port preStop cause
               retryCount s0)
        = Throw (Error (final_message preStop retryCount))
        /\ exists args,
             new_events s0
               (snd (runLifecycleCommand env containerName port preStop cause
                       retryCount s0))
             = [Exec (docker_exec containerName port preStop cause)
                     (Rejected v);
                Logged ERROR args]).
Proof.
  intros res tr.
  destruct (sendPreStop_trace env containerName s) as (tr' & Hemits & Htr).
  apply emits_new_events in Hemits. fold tr in Hemits. fold res in Htr.
  subst tr'.
  destruct (dispatch_preStop_once _ _ _ _ _ Htr) as (Hs & Hle & Hrej).
  split; [exact Hs|]. split; [exact Hle|]. split; [exact Hrej|].
  intros port cause retryCount s0 v Hexec.
  rewrite runLifecycleCommand_eq. unfold run. rewrite Hexec. cbn.
  split; [reflexivity|].
  eexists. unfold new_events. cbn.
  rewrite <- app_assoc. apply drop_app_length.
Qed.

(** A rejected preStop request on run_9: one attempt, no sleep, error. *)
Lemma preStop_never_retried_witness :
  (fst (sendPreStop (Scenario.flaky 1 0) "task-run-run_9" Scenario.fresh)
   = Throw (Error "preStop command failed")
   /\ count is_delivery
        (new_events Scenario.fresh
           (snd (sendPreStop (Scenario.flaky 1 0) "task-run-run_9"
                   Scenario.fresh))) = 1%nat
   /\ count (is_delivered preStop)
        (new_events Scenario.fresh
           (snd (sendPreStop (Scenario.flaky 1 0) "task-run-run_9"
                   Scenario.fresh))) = 0%nat)
  /\ fst (runLifecycleCommand (Scenario.flaky 1 0) "task-run-run_9"
            (Num 4000) preStop "terminate" 0 Scenario.fresh)
     = Throw (Error "preStop command failed after -1 retries").
Proof.
  pose proof (preStop_never_retried (Scenario.flaky 1 0) "task-run-run_9"
                Scenario.fresh) as (_ & _ & Hdispatch & Hdelivery).
  split.
  - apply (Hdispatch
             (docker_exec "task-run-run_9" (Num 4000) preStop "terminate")
             (Scenario.exit_failure 1)).
    + vm_compute. find_event.
    + reflexivity.
  - apply (Hdelivery (Num 4000) "terminate" 0 Scenario.fresh
             (Scenario.exit_failure 1)).
    reflexivity.
Defined.

(** ** Port discovery is outside the retry loop *)

(** A port discovery that throws ends the PostStart dispatch at once. *)
Lemma sendPostStart_port_failure env containerName s e s1 :
  getHttpServerPort env containerName s = (Throw e, s1) ->
  sendPostStart env containerName s
  = (Throw (Error "postStart command failed"),
     log ERROR [LString "postStart error"; LObject [("error", value_of e)]] s1).
Proof.
  intros H. unfold sendPostStart, try_catch, bind. rewrite H. reflexivity.
Qed.

(** What port discovery leaves behind when it throws: its one snapshot,
    and the debug log of it if the snapshot was readable. *)
Lemma getHttpServerPort_failure_events env containerName s e s1 :
  getHttpServerPort env containerName s = (Throw e, s1) ->
  exists o logged,
    history s1 = history s ++ Exec (docker_logs containerName) o :: logged
    /\ count is_delivery logged = 0%nat
    /\ count is_port_discovery logged = 0%nat
    /\ sleeps logged = [].
Proof.
  rewrite getHttpServerPort_eq.
  destruct (execa env (history s) (docker_logs containerName)) as [r|v].
  - cbv zeta. destruct (falsy _); intros [= <- <-].
    exists (Resolved r), [Logged DEBUG [LResult r]]. cbn.
    rewrite <- app_assoc. repeat split.
  - intros [= <- <-]. exists (Rejected v), []. repeat split.
Qed.

(** C7, as the code has it.  Port discovery runs once per dispatch, before
    and outside the retry loop: if the snapshot taken at the start of a
    PostStart dispatch yields no port, the dispatch throws "postStart
    command failed" having taken that single snapshot, made no delivery
    attempt and slept for no backoff.  The retry covers the delivery
    command only. *)
Theorem port_discovery_failure_not_retried
    (env : Env) (containerName : string) (s : state) (e : exn) (s1 : state) :
  getHttpServerPort env containerName s = (Throw e, s1) ->
  let tr := new_events s (snd (sendPostStart env containerName s)) in
  fst (sendPostStart env containerName s)
  = Throw (Error "postStart command failed")
  /\ count is_port_discovery tr = 1%nat
  /\ count is_delivery tr = 0%nat
  /\ sleeps tr = [].
Proof.
  intros H tr. subst tr.
  rewrite (sendPostStart_port_failure _ _ _ _ _ H).
  destruct (getHttpServerPort_failure_events _ _ _ _ _ H)
    as (o & logged & Hhist & Hd & Hp & Hs).
  split; [reflexivity|].
  unfold new_events. cbn. rewrite Hhist, <- app_assoc, drop_app_length.
  rewrite !count_app, !count_cons, sleeps_app, Hd, Hp. cbn.
  rewrite Hs. repeat split.
Qed.

(** The port is announced only after the first snapshot: the dispatch
    fails without a single delivery attempt. *)
Lemma port_discovery_failure_not_retried_witness :
  fst (sendPostStart Scenario.late_port "task-run-run_9" Scenario.fresh)
  = Throw (Error "postStart command failed")
  /\ count is_port_discovery
       (new_events Scenario.fresh
          (snd (sendPostStart Scenario.late_port "task-run-run_9"
                  Scenario.fresh))) = 1%nat
  /\ count is_delivery
       (new_events Scenario.fresh
          (snd (sendPostStart Scenario.late_port "task-run-run_9"
                  Scenario.fresh))) = 0%nat
  /\ sleeps
       (new_events Scenario.fresh
          (snd (sendPostStart Scenario.late_port "task-run-run_9"
                  Scenario.fresh))) = [].
Proof.
  eapply (port_discovery_failure_not_retried Scenario.late_port
            "task-run-run_9" Scenario.fresh).
  vm_compute. reflexivity.
Defined.

(** C7, as stated, does not hold: no PostStart dispatch whose first
    snapshot fails to yield a port ever succeeds. *)
Lemma port_discovery_failure_is_final :
  ~ exists (env : Env) (containerName : string) (s s1 : state) (e : exn),
      getHttpServerPort env containerName s = (Throw e, s1)
      /\ fst (sendPostStart env containerName s) = Ok tt.
Proof.
  intros (env & containerName & s & s1 & e & Hport & Hok).
  rewrite (sendPostStart_port_failure _ _ _ _ _ Hport) in Hok.
  discriminate.
Qed.

(** ** Port discovery *)

(** One snapshot: the result is decided by the leftmost occurrence. *)
Lemma getHttpServerPort_found env containerName s r pre ds post :
  execa env (history s) (docker_logs containerName) = Resolved r ->
  first_occurrence (stdout r) pre ds post ->
  fst (getHttpServerPort env containerName s)
  = if decimal_value ds =? 0 then Throw port_error
    else Ok (to_double (decimal_value ds)).
Proof.
  intros Hexec Hfirst. rewrite getHttpServerPort_eq, Hexec. cbv zeta.
  rewrite (match_port_first _ _ _ _ Hfirst).
  destruct Hfirst as [(_ & _ & Hds & _) _].
  rewrite (falsy_Number_digits ds Hds).
  destruct (decimal_value ds =? 0); reflexivity.
Qed.

Lemma getHttpServerPort_absent env containerName s r :
  execa env (history s) (docker_logs containerName) = Resolved r ->
  no_occurrence (stdout r) ->
  fst (getHttpServerPort env containerName s) = Throw port_error.
Proof.
  intros Hexec Hno. rewrite getHttpServerPort_eq, Hexec. cbv zeta.
  rewrite (match_port_none _ Hno). reflexivity.
Qed.

(** The occurrence in the sample output of the spec. *)
Lemma port_4000_first_occurrence :
  first_occurrence Scenario.port_4000 "...
" "4000" "
...".
Proof.
  split.
  - repeat split. discriminate.
  - intros pre' (d & rest & Hd & Heq).
    do 4 (destruct pre' as [|? pre']; [cbv in Heq; discriminate|]).
    simpl. lia.
Qed.

Lemma port_0_first_occurrence :
  first_occurrence "http server listening on port 0" "" "0" "".
Proof.
  split.
  - repeat split. discriminate.
  - intros pre' _. apply Nat.le_0_l.
Qed.

(** C8, as the code has it.  Over one snapshot of the container's stdout,
    port discovery looks at the leftmost occurrence of "http server
    listening on port <N>".  If the captured numeral is not zero it
    returns the number it denotes, which is the captured integer itself
    whenever that is below 2^53 (4000 for the sample output).  It throws
    the port-extraction error when the pattern does not occur, and also
    when the captured numeral is zero. *)
Theorem port_discovery_first_occurrence
    (env : Env) (containerName : string) (s : state) (r : ExecaReturnValue) :
  execa env (history s) (docker_logs containerName) = Resolved r ->
  (forall pre ds post,
      first_occurrence (stdout r) pre ds post ->
      decimal_value ds <> 0 ->
      fst (getHttpServerPort env containerName s)
      = Ok (to_double (decimal_value ds))
      /\ (decimal_value ds < 2 ^ 53 ->
          fst (getHttpServerPort env containerName s)
          = Ok (Num (decimal_value ds))))
  /\ (forall pre ds post,
        first_occurrence (stdout r) pre ds post ->
        decimal_value ds = 0 ->
        fst (getHttpServerPort env containerName s) = Throw port_error)
  /\ (no_occurrence (stdout r) ->
      fst (getHttpServerPort env containerName s) = Throw port_error)
  /\ (stdout r = Scenario.port_4000 ->
      fst (getHttpServerPort env containerName s) = Ok (Num 4000)).
Proof.
  intros Hexec. split; [|split; [|split]].
  - intros pre ds post Hfirst Hnz.
    rewrite (getHttpServerPort_found _ _ _ _ _ _ _ Hexec Hfirst).
    apply Z.eqb_neq in Hnz. rewrite Hnz. split; [reflexivity|].
    intros Hsmall. now rewrite to_double_exact.
  - intros pre ds post Hfirst Hz.
    rewrite (getHttpServerPort_found _ _ _ _ _ _ _ Hexec Hfirst).
    apply Z.eqb_eq in Hz. now rewrite Hz.
  - now apply getHttpServerPort_absent.
  - intros Hout.
    rewrite (getHttpServerPort_found _ _ _ _ "...
" "4000" "
..." Hexec); [reflexivity|].
    rewrite Hout. apply port_4000_first_occurrence.
Qed.

(** The sample output yields 4000. *)
Lemma port_discovery_first_occurrence_witness :
  fst (getHttpServerPort (Scenario.with_logs Scenario.port_4000)
         "task-run-run_9" Scenario.fresh)
  = Ok (Num 4000).
Proof.
  destruct (port_discovery_first_occurrence
              (Scenario.with_logs Scenario.port_4000) "task-run-run_9"
              Scenario.fresh (Scenario.ok Scenario.port_4000) eq_refl)
    as (Hfound & _).
  destruct (Hfound _ _ _ port_4000_first_occurrence) as [_ Hexact].
  - vm_compute. discriminate.
  - apply Hexact. vm_compute. reflexivity.
Defined.

(** C8, as stated, does not hold: the integer captured by the first
    occurrence is not always what port discovery returns.  On the
    snapshot "http server listening on port 0" the capture is 0 and the
    call throws. *)
Lemma port_discovery_zero_not_returned :
  ~ forall (env : Env) (containerName : string) (s : state)
      (r : ExecaReturnValue) (pre ds post : string),
      execa env (history s) (docker_logs containerName) = Resolved r ->
      first_occurrence (stdout r) pre ds post ->
      fst (getHttpServerPort env containerName s)
      = Ok (Num (decimal_value ds)).
Proof.
  intros Hclaim.
  specialize (Hclaim (Scenario.with_logs "http server listening on port 0")
                "task-run-run_9" Scenario.fresh
                (Scenario.ok "http server listening on port 0")
                "" "0" "" eq_refl port_0_first_occurrence).
  vm_compute in Hclaim. discriminate.
Qed.

(** C10.  When the first match captures a numeral whose value is zero,
    [#getHttpServerPort] throws the port-extraction error; it does not
    return 0. *)
Theorem port_zero_is_rejected
    (env : Env) (containerName : string) (s : state) (r : ExecaReturnValue)
    (pre ds post : string) :
  execa env (history s) (docker_logs containerName) = Resolved r ->
  first_occurrence (stdout r) pre ds post ->
  decimal_value ds = 0 ->
  fst (getHttpServerPort env containerName s)
  = Throw (Error "failed to extract port from logs")
  /\ fst (getHttpServerPort env containerName s) <> Ok (Num 0).
Proof.
  intros Hexec Hfirst Hz.
  rewrite (getHttpServerPort_found _ _ _ _ _ _ _ Hexec Hfirst).
  apply Z.eqb_eq in Hz. rewrite Hz. split; [reflexivity|discriminate].
Qed.

(** The snapshot "http server listening on port 0". *)
Lemma port_zero_is_rejected_witness :
  fst (getHttpServerPort
         (Scenario.with_logs "http server listening on port 0")
         "task-run-run_9" Scenario.fresh)
  = Throw (Error "failed to extract port from logs")
  /\ fst (getHttpServerPort
            (Scenario.with_logs "http server listening on port 0")
            "task-run-run_9" Scenario.fresh)
     <> Ok (Num 0).
Proof.
  apply (port_zero_is_rejected
           (Scenario.with_logs "http server listening on port 0")
           "task-run-run_9" Scenario.fresh
           (Scenario.ok "http server listening on port 0") "" "0" "").
  - reflexivity.
  - apply port_0_first_occurrence.
  - reflexivity.
Defined.

(** ** Index and create: the non-fatal exit failure *)

Lemma probe_no_launch tr :
  Forall (fun ev => is_probe ev = true) tr -> count is_launch tr = 0%nat.
Proof.
  intros H. apply count_zero_Forall. eapply Forall_impl; [exact H|].
  intros [[] o|l args|ms] Hev; try reflexivity; discriminate.
Qed.

Lemma last_two {A} (l : list A) (a b : A) : last (l ++ [a; b]) = Some b.
Proof.
  change [a; b] with ([a] ++ [b]). rewrite app_assoc. apply last_snoc.
Qed.




(** ** The backoff schedule of PostStart *)






(** * Further properties of the task operations *)

(** ** The capability probe *)

Lemma initialize_fresh env forceSimulate s :
  initialized s = false ->
  exists tr cc,
    probe_trace forceSimulate tr cc
    /\ initialize env forceSimulate s
       = (Ok {| ret_canCheckpoint := cc;
                willSimulate := negb cc || forceSimulate |},
          {| initialized := true; canCheckpoint := cc;
             history := history s ++ tr |}).
Proof.
  intros Hfresh. unfold initialize, bind, get_state. rewrite Hfresh.
  unfold attempt, bind, run, logger, set_initialized, set_canCheckpoint,
    get_state, ret, log.
  destruct forceSimulate; cbn;
    repeat match goal with
      | |- context [execa env ?h ?c] => destruct (execa env h c); cbn
      end;
    rewrite <- ?app_assoc; cbn [app];
    eexists; eexists; (split; [|reflexivity]).
  1, 4: match goal with
        | |- probe_trace ?b _ _ => exact (probe_full b _ _)
        end.
  1, 3: match goal with
        | |- probe_trace ?b _ _ => exact (probe_no_docker b _ _)
        end.
  1, 2: match goal with
        | |- probe_trace ?b _ _ => exact (probe_no_criu b _)
        end.
Qed.

Lemma initialize_initialized env forceSimulate s :
  initialized s = true ->
  initialize env forceSimulate s
  = (Ok (getInitializeReturn forceSimulate s), s).
Proof.
  intros H. unfold initialize, bind, get_state. now rewrite H.
Qed.

(** What a probe trace contains. *)
Lemma probe_trace_events forceSimulate tr cc :
  probe_trace forceSimulate tr cc ->
  count is_criu tr = 1%nat
  /\ (count is_docker_checkpoint tr <= 1)%nat
  /\ (cc = true <->
      exists r1 r2, In (Exec criu_version (Resolved r1)) tr
                    /\ In (Exec docker_checkpoint (Resolved r2)) tr)
  /\ (forall v, In (Exec criu_version (Rejected v)) tr ->
                count is_docker_checkpoint tr = 0%nat)
  /\ Forall (fun ev => is_probe ev = true) tr.
Proof.
  intros H.
  assert (Hpre : forall ev, In ev (probe_prelude forceSimulate) ->
                            exists l args, ev = Logged l args).
  { intros ev. destruct forceSimulate; simpl; intuition eauto. }
  assert (Hc1 : count is_criu (probe_prelude forceSimulate) = 0%nat)
    by (destruct forceSimulate; reflexivity).
  assert (Hc2 : count is_docker_checkpoint (probe_prelude forceSimulate)
                = 0%nat)
    by (destruct forceSimulate; reflexivity).
  assert (Hc3 : Forall (fun ev => is_probe ev = true)
                  (probe_prelude forceSimulate))
    by (destruct forceSimulate; repeat constructor).
  destruct H as [v|r v|r1 r2]; rewrite !count_app, Hc1, Hc2.
  - split; [reflexivity|]. split; [apply Nat.le_0_l|]. split; [|split].
    + split; [discriminate|]. intros (r1 & r2 & Hin & _).
      apply in_app_or in Hin as [Hin|[Hin|[Hin|[]]]]; try discriminate.
      apply Hpre in Hin as (l & args & Hin). discriminate.
    + reflexivity.
    + apply Forall_app. split; [assumption|repeat constructor].
  - split; [reflexivity|]. split; [apply Nat.le_refl|]. split; [|split].
    + split; [discriminate|]. intros (r1 & r2 & _ & Hin).
      apply in_app_or in Hin as [Hin|[Hin|[Hin|[Hin|[Hin|[]]]]]];
        try discriminate.
      apply Hpre in Hin as (l & args & Hin). discriminate.
    + intros v' Hin.
      apply in_app_or in Hin as [Hin|[Hin|[Hin|[Hin|[Hin|[]]]]]];
        try discriminate.
      apply Hpre in Hin as (l & args & Hin). discriminate.
    + apply Forall_app. split; [assumption|repeat constructor].
  - split; [reflexivity|]. split; [apply Nat.le_refl|]. split; [|split].
    + split; [|reflexivity]. intros _. exists r1, r2.
      split; apply in_or_app; right; simpl; auto.
    + intros v' Hin.
      apply in_app_or in Hin as [Hin|[Hin|[Hin|[Hin|[]]]]];
        try discriminate.
      apply Hpre in Hin as (l & args & Hin). discriminate.
    + apply Forall_app. split; [assumption|repeat constructor].
Qed.

(** ** Each operation is a probe followed by its own events *)

Ltac emits_literal :=
  unfold emits; cbn; rewrite <- ?app_assoc; repeat split; reflexivity.

Lemma restore_run env forceSimulate opts s :
  exists s1 tr,
    initialize env forceSimulate s
    = (Ok (getInitializeReturn forceSimulate s1), s1)
    /\ emits s1 tr (snd (restore env forceSimulate opts s))
    /\ restore_trace env opts
         (willSimulate (getInitializeReturn forceSimulate s1))
         tr (fst (restore env forceSimulate opts s)).
Proof.
  destruct (initialize_spec env forceSimulate s) as (probe & s1 & Hinit & _).
  exists s1.
  destruct (restore env forceSimulate opts s) as [res s'] eqn:H.
  unfold restore, bind in H. rewrite Hinit in H. cbn [get_state] in H.
  cbn [willSimulate getInitializeReturn fst snd].
  destruct (negb (canCheckpoint s1) || forceSimulate);
    unfold logger, logger_debug, run, throw in H; cbn in H;
    match type of H with
    | context [execa ?e ?h ?c] =>
        destruct (execa e h c) as [r|v] eqn:Hexec
    end.
  2, 4: injection H as <- <-; eexists;
    (split; [exact Hinit|]); (split; [emits_literal|]);
    match goal with
    | |- restore_trace ?e ?o ?b _ _ =>
        exact (runtime_rejected e o b _ v Hexec)
    end.
  all: destruct (exitCode r =? 0) eqn:Hexit; cbn in H.
  2, 4: apply Z.eqb_neq in Hexit; injection H as <- <-; eexists;
    (split; [exact Hinit|]); (split; [emits_literal|]);
    match goal with
    | |- restore_trace ?e ?o ?b _ _ =>
        exact (runtime_nonzero e o b _ r Hexec Hexit)
    end.
  all: apply Z.eqb_eq in Hexit;
    match type of H with
    | sendPostStart ?e ?c ?s2 = _ =>
        destruct (sendPostStart_trace e c s2)
          as (tr & (Hh & Hi & Hc) & Htr);
        rewrite H in Hh, Hi, Hc, Htr; cbn in Hh, Hi, Hc, Htr
    end;
    eexists; (split; [exact Hinit|]);
    (split; [unfold emits; rewrite Hh, Hi, Hc, <- ?app_assoc;
             repeat split; reflexivity|]);
    match goal with
    | |- restore_trace ?e ?o ?b _ _ =>
        exact (runtime_ok e o b _ r tr res Hexec Hexit Htr)
    end.
Qed.

Lemma delete_run env forceSimulate runId s :
  exists s1 tr,
    initialize env forceSimulate s
    = (Ok (getInitializeReturn forceSimulate s1), s1)
    /\ emits s1 tr (snd (delete env forceSimulate runId s))
    /\ delete_trace env runId tr (fst (delete env forceSimulate runId s)).
Proof.
  destruct (initialize_spec env forceSimulate s) as (probe & s1 & Hinit & _).
  exists s1.
  destruct (delete env forceSimulate runId s) as [res s'] eqn:H.
  unfold delete, bind in H. rewrite Hinit in H.
  destruct (sendPreStop_trace env (getRunContainerName runId) s1)
    as (tr & (Hh & Hi & Hc) & Htr).
  destruct (sendPreStop env (getRunContainerName runId) s1) as [[[]|e] s2];
    cbn in Hh, Hi, Hc, Htr; unfold logger in H; injection H as <- <-.
  - eexists. split; [exact Hinit|]. split.
    + unfold emits. cbn. rewrite Hh, Hi, Hc, <- ?app_assoc.
      repeat split; reflexivity.
    + now apply delete_signalled.
  - exists tr. split; [exact Hinit|]. split.
    + unfold emits. auto.
    + now apply delete_failed.
Qed.

Lemma get_run env forceSimulate runId s :
  exists s1,
    initialize env forceSimulate s
    = (Ok (getInitializeReturn forceSimulate s1), s1)
    /\ emits s1 [Logged LOG [LString "noop: get"]]
         (snd (get_ env forceSimulate runId s))
    /\ fst (get_ env forceSimulate runId s) = Ok tt.
Proof.
  destruct (initialize_spec env forceSimulate s) as (probe & s1 & Hinit & _).
  exists s1. unfold get_, bind. rewrite Hinit. cbn.
  split; [reflexivity|]. split; [emits_literal|reflexivity].
Qed.

Section LaunchRun.

Variable env : Env.
Variable forceSimulate : bool.
Variables COORDINATOR_PORT COORDINATOR_HOST OTEL_EXPORTER_OTLP_ENDPOINT : string.

Ltac launch_run H Hinit :=
  unfold bind in H; rewrite Hinit in H;
  unfold try_catch, bind, logger, logger_debug, run, throw, ret in H;
  cbn in H;
  match type of H with
  | context [execa env ?h ?c] => destruct (execa env h c)
  end;
  [ injection H as <- <-; eexists;
    (split; [exact Hinit|]); (split; [emits_literal|]);
    match goal with
    | |- launch_trace ?c ?l ?o ?p _ _ => exact (launch_resolved c l o p _)
    end
  | let Hexeca := fresh "Hexeca" in
    cbn in H;
    match type of H with
    | context [if negb ?b then _ else _] => destruct b eqn:Hexeca
    end;
    cbn in H; injection H as <- <-; eexists;
    (split; [exact Hinit|]); (split; [emits_literal|]);
    match goal with
    | |- launch_trace ?c ?l ?o ?p _ (Ok _, _).1 =>
        exact (launch_exit_failure c l o p _ Hexeca)
    | |- launch_trace ?c ?l ?o ?p _ _ =>
        exact (launch_rethrown c l o p _ Hexeca)
    end ].

Lemma index_run opts s :
  exists s1 tr,
    initialize env forceSimulate s
    = (Ok (getInitializeReturn forceSimulate s1), s1)
    /\ emits s1 tr
         (snd (index env forceSimulate COORDINATOR_PORT COORDINATOR_HOST
                 OTEL_EXPORTER_OTLP_ENDPOINT opts s))
    /\ launch_trace
         (index_command COORDINATOR_PORT COORDINATOR_HOST
            OTEL_EXPORTER_OTLP_ENDPOINT opts)
         "Index failed:" (index_opts_value opts)
         [Logged LOG [LString ("Indexing task " +:+ index_imageRef opts);
                      LObject [("host", str COORDINATOR_HOST);
                               ("port", str COORDINATOR_PORT)]]]
         tr
         (fst (index env forceSimulate COORDINATOR_PORT COORDINATOR_HOST
                 OTEL_EXPORTER_OTLP_ENDPOINT opts s)).
Proof.
  destruct (initialize_spec env forceSimulate s) as (probe & s1 & Hinit & _).
  exists s1.
  destruct (index env forceSimulate COORDINATOR_PORT COORDINATOR_HOST
              OTEL_EXPORTER_OTLP_ENDPOINT opts s) as [res s'] eqn:H.
  unfold index in H. launch_run H Hinit.
Qed.

Lemma create_run opts s :
  exists s1 tr,
    initialize env forceSimulate s
    = (Ok (getInitializeReturn forceSimulate s1), s1)
    /\ emits s1 tr
         (snd (create env forceSimulate COORDINATOR_PORT COORDINATOR_HOST
                 OTEL_EXPORTER_OTLP_ENDPOINT opts s))
    /\ launch_trace
         (create_command COORDINATOR_PORT COORDINATOR_HOST
            OTEL_EXPORTER_OTLP_ENDPOINT opts)
         "Create failed:" (create_opts_value opts) [] tr
         (fst (create env forceSimulate COORDINATOR_PORT COORDINATOR_HOST
                 OTEL_EXPORTER_OTLP_ENDPOINT opts s)).
Proof.
  destruct (initialize_spec env forceSimulate s) as (probe & s1 & Hinit & _).
  exists s1.
  destruct (create env forceSimulate COORDINATOR_PORT COORDINATOR_HOST
              OTEL_EXPORTER_OTLP_ENDPOINT opts s) as [res s'] eqn:H.
  unfold create in H. launch_run H Hinit.
Qed.

End LaunchRun.

(** How the probe and the events of an operation make up its trace. *)
Lemma operation_frame env forceSimulate s s1 tr s' :
  initialize env forceSimulate s
  = (Ok (getInitializeReturn forceSimulate s1), s1) ->
  emits s1 tr s' ->
  exists probe,
    history s' = history s ++ probe ++ tr
    /\ new_events s s' = probe ++ tr
    /\ initialized s' = true
    /\ canCheckpoint s' = canCheckpoint s1
    /\ (initialized s = true -> probe = [] /\ s1 = s)
    /\ (initialized s = false ->
        probe_trace forceSimulate probe (canCheckpoint s1)).
Proof.
  intros Hinit (Hh & Hi & Hc).
  destruct (initialized s) eqn:Hs.
  - rewrite (initialize_initialized _ _ _ Hs) in Hinit.
    injection Hinit as Heq. subst s1. exists [].
    split; [exact Hh|]. split; [apply new_events_app; exact Hh|].
    split; [congruence|]. split; [exact Hc|]. split; [auto|discriminate].
  - destruct (initialize_fresh env forceSimulate s Hs)
      as (probe & cc & Hprobe & Heq).
    rewrite Heq in Hinit. injection Hinit as _ Hs1. subst s1.
    cbn in Hh, Hi, Hc. exists probe.
    assert (Hhist : history s' = history s ++ probe ++ tr)
      by (rewrite Hh, app_assoc; reflexivity).
    split; [exact Hhist|]. split; [apply new_events_app; exact Hhist|].
    split; [exact Hi|]. split; [exact Hc|]. split; [discriminate|].
    intros _. exact Hprobe.
Qed.

(** ** Nothing but [#initialize] probes *)

Lemma probe_command_split (tr : list event) :
  count is_probe_command tr
  = (count is_criu tr + count is_docker_checkpoint tr)%nat.
Proof.
  induction tr as [|ev tr IH]; [reflexivity|].
  rewrite !count_cons, IH.
  destruct ev as [[] o|l args|ms]; simpl; lia.
Qed.

Lemma delivery_no_probe env containerName port type cause retryCount tr res :
  delivery_trace env containerName port type cause retryCount tr res ->
  count is_probe_command tr = 0%nat /\ count is_launch tr = 0%nat.
Proof.
  induction 1 as [rc r|rc v args s2 tr res _ _ _ [IH1 IH2]|rc v args _];
    autorewrite with trace_rw; simpl; auto.
Qed.

Lemma dispatch_no_probe env containerName type cause tr res :
  dispatch_trace env containerName type cause tr res ->
  count is_probe_command tr = 0%nat /\ count is_launch tr = 0%nat.
Proof.
  destruct 1 as [v args|r args _|r tr r' _ Htr|r tr e args _ Htr].
  1, 2: split; reflexivity.
  all: destruct (delivery_no_probe _ _ _ _ _ _ _ _ Htr) as [Hp Hl];
    autorewrite with trace_rw; rewrite Hp, Hl; split; reflexivity.
Qed.

Lemma restore_no_probe env opts simulate tr res :
  restore_trace env opts simulate tr res ->
  count is_probe_command tr = 0%nat /\ count is_launch tr = 0%nat.
Proof.
  destruct 1 as [h v _|h r _ _|h r tr res _ _ Hd].
  1, 2: destruct simulate; split; reflexivity.
  destruct (dispatch_no_probe _ _ _ _ _ _ Hd) as [Hp Hl].
  autorewrite with trace_rw. rewrite Hp, Hl.
  destruct simulate; split; reflexivity.
Qed.

Lemma delete_no_probe env runId tr res :
  delete_trace env runId tr res ->
  count is_probe_command tr = 0%nat
  /\ count is_launch tr = 0%nat
  /\ count is_runtime_command tr = 0%nat.
Proof.
  destruct 1 as [tr Hd|tr e Hd];
    destruct (dispatch_no_probe _ _ _ _ _ _ Hd) as [Hp Hl];
    destruct (dispatch_one_snapshot _ _ _ Hd) as (_ & Hr & _);
    autorewrite with trace_rw; rewrite Hp, Hl, Hr; repeat split.
Qed.

Lemma launch_no_probe args label opts pre tr res :
  count is_probe_command pre = 0%nat ->
  count is_hook_traffic pre = 0%nat ->
  count is_runtime_command pre = 0%nat ->
  count is_launch pre = 0%nat ->
  launch_trace (docker_run args) label opts pre tr res ->
  count is_probe_command tr = 0%nat
  /\ count is_hook_traffic tr = 0%nat
  /\ count is_runtime_command tr = 0%nat
  /\ count is_launch tr = 1%nat.
Proof.
  intros H1 H2 H3 H4. destruct 1 as [r|v _|v _];
    autorewrite with trace_rw; rewrite H1, H2, H3, H4; repeat split.
Qed.

Lemma probe_trace_quiet forceSimulate tr cc :
  probe_trace forceSimulate tr cc ->
  count is_hook_traffic tr = 0%nat
  /\ count is_runtime_command tr = 0%nat
  /\ count is_unpause tr = 0%nat
  /\ count is_checkpoint_start tr = 0%nat
  /\ count is_launch tr = 0%nat
  /\ count is_criu tr = 1%nat.
Proof.
  intros H.
  destruct (probe_trace_events _ _ _ H) as (Hc & _ & _ & _ & Hall).
  destruct (probe_no_traffic _ Hall) as (H1 & _ & H2 & H3 & H4).
  pose proof (probe_no_launch _ Hall). auto 10.
Qed.

(** ** The probe: memoised and fail-closed *)

(** X1.  [#initialize] is memoised: called again on the state it left,
    it returns the same result, changes nothing and emits no event. *)
Theorem initialize_memoized (env : Env) (forceSimulate : bool) (s : state) :
  let s1 := snd (initialize env forceSimulate s) in
  initialize env forceSimulate s1 = (fst (initialize env forceSimulate s), s1)
  /\ new_events s1 (snd (initialize env forceSimulate s1)) = [].
Proof.
  intros s1.
  destruct (initialize_spec env forceSimulate s)
    as (tr & s1' & Heq & _ & _ & Hinit & _).
  subst s1. rewrite Heq. cbn [fst snd].
  rewrite (initialize_initialized _ _ _ Hinit). cbn [snd].
  split; [reflexivity|]. unfold new_events. apply drop_all.
Qed.

(** X2.  On an instance not yet initialized, [#initialize] never throws
    and leaves the instance initialized.  It runs [criu --version] exactly
    once and [docker checkpoint] at most once, and not at all when the
    first was rejected.  [#canCheckpoint] ends up true exactly when both
    commands resolved; any rejection leaves it false. *)
Theorem probe_fails_closed (env : Env) (forceSimulate : bool) (s : state) :
  initialized s = false ->
  let s1 := snd (initialize env forceSimulate s) in
  let tr := new_events s s1 in
  fst (initialize env forceSimulate s)
  = Ok (getInitializeReturn forceSimulate s1)
  /\ initialized s1 = true
  /\ count is_criu tr = 1%nat
  /\ (count is_docker_checkpoint tr <= 1)%nat
  /\ (canCheckpoint s1 = true <->
      exists r1 r2, In (Exec criu_version (Resolved r1)) tr
                    /\ In (Exec docker_checkpoint (Resolved r2)) tr)
  /\ (forall v, In (Exec criu_version (Rejected v)) tr ->
                count is_docker_checkpoint tr = 0%nat
                /\ canCheckpoint s1 = false).
Proof.
  intros Hfresh s1 tr.
  destruct (initialize_fresh env forceSimulate s Hfresh)
    as (ptr & cc & Hprobe & Heq).
  subst tr s1. rewrite Heq. cbn [fst snd].
  match goal with
  | |- context [new_events s ?s1] =>
      rewrite (new_events_app s s1 ptr eq_refl)
  end.
  cbn.
  destruct (probe_trace_events _ _ _ Hprobe) as (Hc & Hd & Hcc & Hrej & _).
  split; [reflexivity|]. split; [reflexivity|].
  split; [exact Hc|]. split; [exact Hd|]. split; [exact Hcc|].
  intros v Hin. split; [now apply (Hrej v)|].
  destruct cc; [|reflexivity].
  destruct (proj1 Hcc eq_refl) as (r1 & r2 & _ & Hin2).
  pose proof (Hrej v Hin) as Hzero.
  apply (count_zero_In _ _ _ Hzero) in Hin2. discriminate.
Qed.

(** Without a criu binary the docker feature is never probed. *)
Lemma probe_fails_closed_witness :
  count is_docker_checkpoint
    (new_events Scenario.fresh
       (snd (initialize Cases.no_criu false Scenario.fresh))) = 0%nat
  /\ canCheckpoint (snd (initialize Cases.no_criu false Scenario.fresh))
     = false.
Proof.
  apply (proj2 (proj2 (proj2 (proj2 (proj2
           (probe_fails_closed Cases.no_criu false Scenario.fresh eq_refl)))))
           (Scenario.exit_failure 127)).
  vm_compute. find_event.
Defined.

(** ** Restore takes the real path only with full support and no forcing *)

Lemma In_probe_command_prefix probe tr ev :
  count is_probe_command tr = 0%nat ->
  is_probe_command ev = true ->
  In ev (probe ++ tr) <-> In ev probe.
Proof.
  intros Hzero Hev. split; [|intros H; apply in_or_app; now left].
  intros [H|H]%in_app_or; [assumption|].
  apply (count_zero_In _ _ _ Hzero) in H. congruence.
Qed.

(** X3.  On an instance not yet initialized, restore issues exactly one
    runtime command, and it is [docker start --checkpoint] exactly when
    [forceSimulate] is off and both probe commands ([criu --version] and
    [docker checkpoint]) resolved during this very call; in every other
    case it is [docker unpause]. *)
Theorem restore_real_path_iff
    (env : Env) (forceSimulate : bool)
    (opts : TaskOperationsRestoreOptions) (s : state) :
  initialized s = false ->
  let tr := new_events s (snd (restore env forceSimulate opts s)) in
  (count is_checkpoint_start tr + count is_unpause tr = 1)%nat
  /\ (count is_checkpoint_start tr = 1%nat <->
      forceSimulate = false
      /\ exists r1 r2, In (Exec criu_version (Resolved r1)) tr
                       /\ In (Exec docker_checkpoint (Resolved r2)) tr).
Proof.
  intros Hfresh tr.
  destruct (restore_run env forceSimulate opts s)
    as (s1 & rtr & Hinit & Hemits & Htr).
  destruct (operation_frame _ _ _ _ _ _ Hinit Hemits)
    as (probe & _ & Hnew & _ & _ & _ & Hprobe).
  specialize (Hprobe Hfresh). fold tr in Hnew. rewrite Hnew.
  destruct (probe_trace_quiet _ _ _ Hprobe) as (_ & _ & Hu & Hc & _ & _).
  destruct (probe_trace_events _ _ _ Hprobe) as (_ & _ & Hcc & _ & _).
  destruct (restore_no_probe _ _ _ _ _ Htr) as [Hnp _].
  apply restore_trace_runtime_counts in Htr as (Hru & Hrc & _).
  cbn [willSimulate getInitializeReturn] in Hru, Hrc.
  rewrite !count_app, Hu, Hc, Hru, Hrc.
  assert (Hboth :
            (exists r1 r2, In (Exec criu_version (Resolved r1)) (probe ++ rtr)
                           /\ In (Exec docker_checkpoint (Resolved r2))
                                (probe ++ rtr))
            <-> canCheckpoint s1 = true).
  { rewrite Hcc. split; intros (r1 & r2 & H1 & H2); exists r1, r2.
    - split; [apply (In_probe_command_prefix probe rtr) in H1
             |apply (In_probe_command_prefix probe rtr) in H2]; auto.
    - split; apply in_or_app; now left. }
  rewrite Hboth.
  destruct (canCheckpoint s1), forceSimulate; cbn; split; try reflexivity;
    split; try discriminate; try (intros [? ?]; discriminate); auto.
Qed.

(** With full support and no forcing the restore starts from the
    checkpoint. *)
Lemma restore_real_path_iff_witness :
  count is_checkpoint_start
    (new_events Scenario.fresh
       (snd (restore Cases.supported false Scenario.run_9 Scenario.fresh)))
  = 1%nat.
Proof.
  apply (proj2 (restore_real_path_iff Cases.supported false Scenario.run_9
                  Scenario.fresh eq_refl)).
  split; [reflexivity|].
  exists (Scenario.ok ""), (Scenario.ok "").
  split; vm_compute; find_event.
Defined.

(** X4.  The module constant [FORCE_CHECKPOINT_SIMULATION] is true when
    the variable is unset, "1" or "true", and false for any other value
    (the empty string included).  A provider built with a true flag never
    starts from a checkpoint: its restore issues one unpause and no
    [docker start], whatever the probe found. *)
Theorem provider_simulates_unless_disabled
    (env : Env) (variable : option string)
    (opts : TaskOperationsRestoreOptions) (s : state) :
  let flag := FORCE_CHECKPOINT_SIMULATION variable in
  let tr := new_events s (snd (restore env flag opts s)) in
  (flag = true <->
   variable = None \/ variable = Some "1" \/ variable = Some "true")
  /\ (flag = true ->
      count is_checkpoint_start tr = 0%nat /\ count is_unpause tr = 1%nat).
Proof.
  intros flag tr. split.
  - subst flag. unfold FORCE_CHECKPOINT_SIMULATION.
    destruct variable as [v|]; simpl.
    + rewrite !orb_true_iff, !String.eqb_eq. split.
      * intros [->|[->|[=]]]; auto.
      * intros [[=]|[[= ->]|[= ->]]]; auto.
    + split; auto.
  - intros Hflag.
    destruct (restore_run env flag opts s)
      as (s1 & rtr & Hinit & Hemits & Htr).
    destruct (operation_frame _ _ _ _ _ _ Hinit Hemits)
      as (probe & _ & Hnew & _ & _ & Hold & Hfresh).
    fold tr in Hnew. rewrite Hnew.
    apply restore_trace_runtime_counts in Htr as (Hru & Hrc & _).
    cbn [willSimulate getInitializeReturn] in Hru, Hrc.
    rewrite Hflag, orb_true_r in Hru, Hrc.
    assert (count is_unpause probe = 0%nat
            /\ count is_checkpoint_start probe = 0%nat) as [Hu Hc].
    { destruct (initialized s) eqn:Hs.
      - destruct (Hold eq_refl) as [-> _]. split; reflexivity.
      - destruct (probe_trace_quiet _ _ _ (Hfresh eq_refl))
          as (_ & _ & Hu & Hc & _). auto. }
    rewrite !count_app, Hu, Hc, Hru, Hrc. split; reflexivity.
Qed.

(** Unset variable, full checkpoint support: still an unpause. *)
Lemma provider_simulates_unless_disabled_witness :
  count is_checkpoint_start
    (new_events Scenario.fresh
       (snd (restore Cases.supported (FORCE_CHECKPOINT_SIMULATION None)
               Scenario.run_9 Scenario.fresh))) = 0%nat
  /\ count is_unpause
       (new_events Scenario.fresh
          (snd (restore Cases.supported (FORCE_CHECKPOINT_SIMULATION None)
                  Scenario.run_9 Scenario.fresh))) = 1%nat.
Proof.
  apply (proj2 (provider_simulates_unless_disabled Cases.supported None
                  Scenario.run_9 Scenario.fresh)).
  reflexivity.
Defined.

(** ** One probe for the life of an instance *)

Section ProbeOnce.

Variable env : Env.
Variable forceSimulate : bool.
Variables COORDINATOR_PORT COORDINATOR_HOST OTEL_EXPORTER_OTLP_ENDPOINT : string.

Local Abbreviation perform_ :=
  (perform env forceSimulate COORDINATOR_PORT COORDINATOR_HOST
     OTEL_EXPORTER_OTLP_ENDPOINT).
Local Abbreviation serve_ :=
  (serve env forceSimulate COORDINATOR_PORT COORDINATOR_HOST
     OTEL_EXPORTER_OTLP_ENDPOINT).

(** Every request is a probe followed by events that do not probe. *)
Lemma perform_frame req s :
  exists s1 tr,
    initialize env forceSimulate s
    = (Ok (getInitializeReturn forceSimulate s1), s1)
    /\ emits s1 tr (snd (perform_ req s))
    /\ count is_probe_command tr = 0%nat.
Proof.
  destruct req as [opts|opts|opts|runId|runId]; cbn [perform].
  - destruct (index_run env forceSimulate COORDINATOR_PORT COORDINATOR_HOST
                OTEL_EXPORTER_OTLP_ENDPOINT opts s)
      as (s1 & tr & Hinit & Hemits & Htr).
    exists s1, tr. split; [exact Hinit|]. split; [exact Hemits|].
    unfold index_command in Htr.
    now apply launch_no_probe in Htr as [Hp _].
  - destruct (create_run env forceSimulate COORDINATOR_PORT COORDINATOR_HOST
                OTEL_EXPORTER_OTLP_ENDPOINT opts s)
      as (s1 & tr & Hinit & Hemits & Htr).
    exists s1, tr. split; [exact Hinit|]. split; [exact Hemits|].
    unfold create_command in Htr.
    now apply launch_no_probe in Htr as [Hp _].
  - destruct (restore_run env forceSimulate opts s)
      as (s1 & tr & Hinit & Hemits & Htr).
    exists s1, tr. split; [exact Hinit|]. split; [exact Hemits|].
    now apply restore_no_probe in Htr as [Hp _].
  - destruct (delete_run env forceSimulate runId s)
      as (s1 & tr & Hinit & Hemits & Htr).
    exists s1, tr. split; [exact Hinit|]. split; [exact Hemits|].
    now apply delete_no_probe in Htr as [Hp _].
  - destruct (get_run env forceSimulate runId s) as (s1 & Hinit & Hemits & _).
    exists s1, [Logged LOG [LString "noop: get"]].
    split; [exact Hinit|]. split; [exact Hemits|reflexivity].
Qed.

(** What one request does to the probe state. *)
Lemma perform_probe req s :
  exists tr,
    history (snd (perform_ req s)) = history s ++ tr
    /\ initialized (snd (perform_ req s)) = true
    /\ count is_criu tr = (if initialized s then 0 else 1)%nat
    /\ (count is_docker_checkpoint tr <= if initialized s then 0 else 1)%nat
    /\ (initialized s = true ->
        canCheckpoint (snd (perform_ req s)) = canCheckpoint s).
Proof.
  destruct (perform_frame req s) as (s1 & tr & Hinit & Hemits & Hnp).
  destruct (operation_frame _ _ _ _ _ _ Hinit Hemits)
    as (probe & Hhist & _ & Hi & Hc & Hold & Hfresh).
  rewrite probe_command_split in Hnp.
  exists (probe ++ tr). split; [exact Hhist|]. split; [exact Hi|].
  rewrite !count_app.
  destruct (initialized s).
  - destruct (Hold eq_refl) as [-> ->]. cbn.
    split; [lia|]. split; [lia|]. intros _. exact Hc.
  - destruct (probe_trace_events _ _ _ (Hfresh eq_refl)) as (H1 & H2 & _).
    split; [lia|]. split; [lia|]. discriminate.
Qed.

Lemma serve_probe reqs s :
  exists tr,
    history (serve_ reqs s) = history s ++ tr
    /\ (count is_criu tr <= if initialized s then 0 else 1)%nat
    /\ (count is_docker_checkpoint tr <= if initialized s then 0 else 1)%nat
    /\ (initialized s = true ->
        initialized (serve_ reqs s) = true
        /\ canCheckpoint (serve_ reqs s) = canCheckpoint s)
    /\ (reqs <> [] -> initialized (serve_ reqs s) = true).
Proof.
  revert s. induction reqs as [|req reqs IH]; intros s.
  - exists []. cbn. rewrite app_nil_r.
    split; [reflexivity|]. split; [apply Nat.le_0_l|].
    split; [apply Nat.le_0_l|]. split; [auto|congruence].
  - cbn [serve].
    destruct (perform_probe req s) as (tr1 & Hh1 & Hi1 & Hc1 & Hd1 & Hk1).
    destruct (IH (snd (perform_ req s)))
      as (tr2 & Hh2 & Hc2 & Hd2 & Hk2 & _).
    rewrite Hi1 in Hc2, Hd2. destruct (Hk2 Hi1) as [Hi2 Hcc2].
    exists (tr1 ++ tr2).
    split; [rewrite Hh2, Hh1, app_assoc; reflexivity|].
    rewrite !count_app.
    split; [destruct (initialized s); lia|].
    split; [destruct (initialized s); lia|].
    split; [|intros _; exact Hi2].
    intros Hs. split; [exact Hi2|]. rewrite Hcc2. now apply Hk1.
Qed.

End ProbeOnce.

(** X5.  Over any sequence of requests (index, create, restore, delete,
    get) served one after the other by one instance, the capability probe
    runs at most once: [criu --version] and [docker checkpoint] are each
    issued at most once.  On an instance already initialized no probe
    command is issued at all and [#canCheckpoint] keeps its value; after
    the first request the instance is initialized. *)
Theorem probe_runs_once
    (env : Env) (forceSimulate : bool)
    (COORDINATOR_PORT COORDINATOR_HOST OTEL_EXPORTER_OTLP_ENDPOINT : string)
    (reqs : list request) (s : state) :
  let s' :=
    serve env forceSimulate COORDINATOR_PORT COORDINATOR_HOST
      OTEL_EXPORTER_OTLP_ENDPOINT reqs s in
  let tr := new_events s s' in
  (count is_criu tr <= 1)%nat
  /\ (count is_docker_checkpoint tr <= 1)%nat
  /\ (initialized s = true ->
      count is_probe_command tr = 0%nat
      /\ canCheckpoint s' = canCheckpoint s)
  /\ (reqs <> [] -> initialized s' = true).
Proof.
  intros s' tr.
  destruct (serve_probe env forceSimulate COORDINATOR_PORT COORDINATOR_HOST
              OTEL_EXPORTER_OTLP_ENDPOINT reqs s)
    as (tr' & Hh & Hc & Hd & Hk & Hi).
  apply new_events_app in Hh. fold s' in Hh, Hk, Hi. fold tr in Hh.
  subst tr'.
  split; [destruct (initialized s); lia|].
  split; [destruct (initialized s); lia|].
  split; [|exact Hi].
  intros Hs. rewrite Hs in Hc, Hd. rewrite probe_command_split.
  split; [lia|]. now apply Hk.
Qed.

(** Four requests on a fresh instance: the probe ran for the first only;
    on a probed instance the same requests do not probe. *)
Lemma probe_runs_once_witness :
  (count is_probe_command
     (new_events Cases.probed
        (serve Cases.supported false "8020" "127.0.0.1" "http://0.0.0.0:4318"
           [Restore Scenario.run_9; Delete "run_9"; Get "run_9";
            Index Scenario.index_abc123]
           Cases.probed)) = 0%nat
   /\ canCheckpoint
        (serve Cases.supported false "8020" "127.0.0.1" "http://0.0.0.0:4318"
           [Restore Scenario.run_9; Delete "run_9"; Get "run_9";
            Index Scenario.index_abc123]
           Cases.probed)
      = canCheckpoint Cases.probed)
  /\ initialized
       (serve Cases.supported false "8020" "127.0.0.1" "http://0.0.0.0:4318"
          [Restore Scenario.run_9; Delete "run_9"; Get "run_9";
           Index Scenario.index_abc123]
          Scenario.fresh) = true.
Proof.
  split.
  - apply (proj1 (proj2 (proj2
             (probe_runs_once Cases.supported false "8020" "127.0.0.1"
                "http://0.0.0.0:4318"
                [Restore Scenario.run_9; Delete "run_9"; Get "run_9";
                 Index Scenario.index_abc123]
                Cases.probed)))).
    reflexivity.
  - apply (proj2 (proj2 (proj2
             (probe_runs_once Cases.supported false "8020" "127.0.0.1"
                "http://0.0.0.0:4318"
                [Restore Scenario.run_9; Delete "run_9"; Get "run_9";
                 Index Scenario.index_abc123]
                Scenario.fresh)))).
    discriminate.
Defined.

(** ** Delete and get *)

Lemma count_delivered_zero type (tr : list event) :
  count is_hook_traffic tr = 0%nat -> count (is_delivered type) tr = 0%nat.
Proof.
  intros H. apply count_zero_Forall. apply count_zero_Forall in H.
  eapply Forall_impl; [exact H|].
  intros ev Hev. destruct ev as [[] [r|v]|l args|ms];
    try reflexivity; cbn in Hev; discriminate.
Qed.

Lemma sleeps_probe (tr : list event) :
  Forall (fun ev => is_probe ev = true) tr -> sleeps tr = [].
Proof.
  induction 1 as [|ev tr Hev _ IH]; [reflexivity|].
  destruct ev as [c o|l args|ms]; try discriminate; exact IH.
Qed.

(** The probe of an operation, fresh or not, only probes and logs, and
    never logs the closing line of [delete]. *)
Lemma frame_probe_quiet forceSimulate (s s1 : state) probe :
  (initialized s = true -> probe = [] /\ s1 = s) ->
  (initialized s = false ->
   probe_trace forceSimulate probe (canCheckpoint s1)) ->
  Forall (fun ev => is_probe ev = true) probe
  /\ count is_noop_delete probe = 0%nat.
Proof.
  intros Hold Hfresh. destruct (initialized s).
  - destruct (Hold eq_refl) as [-> _]. split; [constructor|reflexivity].
  - specialize (Hfresh eq_refl).
    destruct (probe_trace_events _ _ _ Hfresh) as (_ & _ & _ & _ & Hall).
    split; [exact Hall|].
    destruct Hfresh; destruct forceSimulate; reflexivity.
Qed.

Lemma delivery_no_noop env containerName port type cause retryCount tr res :
  delivery_trace env containerName port type cause retryCount tr res ->
  count is_noop_delete tr = 0%nat.
Proof.
  induction 1; autorewrite with trace_rw; simpl; auto.
Qed.

Lemma dispatch_no_noop env containerName type cause tr res :
  dispatch_trace env containerName type cause tr res ->
  count is_noop_delete tr = 0%nat.
Proof.
  destruct 1 as [v args|r args _|r tr r' _ Htr|r tr e args _ Htr].
  1, 2: reflexivity.
  all: pose proof (delivery_no_noop _ _ _ _ _ _ _ _ Htr) as Hn;
    autorewrite with trace_rw; rewrite Hn; reflexivity.
Qed.

(** X6.  [delete] removes nothing: besides the probe it issues one
    snapshot of the log and at most one preStop request, never sleeps and
    issues no runtime or launch command.  Either the request was answered,
    and [delete] returns normally with "noop: delete" as its last log, or
    it throws "preStop command failed" and never logs "noop: delete". *)
Theorem delete_signals_preStop_once
    (env : Env) (forceSimulate : bool) (runId : string) (s : state) :
  let res := fst (delete env forceSimulate runId s) in
  let tr := new_events s (snd (delete env forceSimulate runId s)) in
  count is_port_discovery tr = 1%nat
  /\ (count is_delivery tr <= 1)%nat
  /\ sleeps tr = []
  /\ count is_runtime_command tr = 0%nat
  /\ count is_launch tr = 0%nat
  /\ ((res = Ok tt
       /\ count (is_delivered preStop) tr = 1%nat
       /\ last tr = Some (Logged LOG [LString "noop: delete"]))
      \/ (res = Throw (Error "preStop command failed")
          /\ count (is_delivered preStop) tr = 0%nat
          /\ count is_noop_delete tr = 0%nat)).
Proof.
  intros res tr.
  destruct (delete_run env forceSimulate runId s)
    as (s1 & dtr & Hinit & Hemits & Htr).
  destruct (operation_frame _ _ _ _ _ _ Hinit Hemits)
    as (probe & _ & Hnew & _ & _ & Hold & Hfresh).
  fold tr in Hnew. fold res in Htr. rewrite Hnew.
  destruct (frame_probe_quiet _ _ _ _ Hold Hfresh) as [Hall Hnoop].
  destruct (probe_no_traffic _ Hall) as (Hp1 & Hp2 & Hp3 & _).
  pose proof (probe_no_launch _ Hall) as Hp4.
  pose proof (sleeps_probe _ Hall) as Hp5.
  pose proof (count_delivered_zero preStop _ Hp1) as Hp6.
  assert (Hp7 : count is_delivery probe = 0%nat).
  { pose proof (count_hook_traffic probe). lia. }
  destruct Htr as [dtr Hd|dtr e Hd];
    destruct (dispatch_one_snapshot _ _ _ Hd) as (Hone & Hrt & _);
    destruct (dispatch_no_probe _ _ _ _ _ _ Hd) as [_ Hl];
    destruct (dispatch_preStop_once _ _ _ _ _ Hd) as (Hs & Hle & _);
    pose proof (dispatch_no_noop _ _ _ _ _ _ Hd) as Hnd;
    destruct (dispatch_result _ _ _ Hd) as [[Hres Hn]|[Hres Hn]];
    try discriminate.
  - assert (Hlast : last (probe ++ dtr ++ [Logged LOG [LString "noop: delete"]])
                    = Some (Logged LOG [LString "noop: delete"]))
      by (rewrite app_assoc; apply last_snoc).
    rewrite Hlast, !count_app, !sleeps_app, Hp2, Hp3, Hp4, Hp5, Hp6, Hp7,
      Hone, Hrt, Hl, Hs, Hn.
    autorewrite with trace_rw. cbn.
    do 5 (split; [first [reflexivity | lia]|]).
    left. split; [reflexivity|]. split; reflexivity.
  - injection Hres as ->.
    rewrite !count_app, !sleeps_app, Hp2, Hp3, Hp4, Hp5, Hp6, Hp7,
      Hone, Hrt, Hl, Hs, Hn, Hnoop, Hnd.
    cbn.
    do 5 (split; [first [reflexivity | lia]|]).
    right. split; [reflexivity|]. split; reflexivity.
Qed.

(** X7.  [get] inspects nothing: it never throws, issues no hook,
    runtime or launch command, and ends with the log "noop: get"; on an
    initialized instance that log is its only event. *)
Theorem get_inspects_nothing
    (env : Env) (forceSimulate : bool) (runId : string) (s : state) :
  let tr := new_events s (snd (get_ env forceSimulate runId s)) in
  fst (get_ env forceSimulate runId s) = Ok tt
  /\ last tr = Some (Logged LOG [LString "noop: get"])
  /\ count is_hook_traffic tr = 0%nat
  /\ count is_runtime_command tr = 0%nat
  /\ count is_launch tr = 0%nat
  /\ (initialized s = true -> tr = [Logged LOG [LString "noop: get"]]).
Proof.
  intros tr.
  destruct (get_run env forceSimulate runId s) as (s1 & Hinit & Hemits & Hres).
  destruct (operation_frame _ _ _ _ _ _ Hinit Hemits)
    as (probe & _ & Hnew & _ & _ & Hold & Hfresh).
  fold tr in Hnew. rewrite Hnew.
  destruct (frame_probe_quiet _ _ _ _ Hold Hfresh) as [Hall _].
  destruct (probe_no_traffic _ Hall) as (Hp1 & _ & Hp3 & _).
  pose proof (probe_no_launch _ Hall) as Hp4.
  split; [exact Hres|]. split; [apply last_snoc|].
  rewrite !count_app, Hp1, Hp3, Hp4.
  repeat split. intros Hs. now destruct (Hold Hs) as [-> _].
Qed.

(** On a probed instance [get] only logs. *)
Lemma get_inspects_nothing_witness :
  new_events Cases.probed (snd (get_ Cases.supported false "run_9" Cases.probed))
  = [Logged LOG [LString "noop: get"]].
Proof.
  apply (proj2 (proj2 (proj2 (proj2 (proj2
           (get_inspects_nothing Cases.supported false "run_9"
              Cases.probed)))))).
  reflexivity.
Defined.

(** ** Container names *)

Lemma append_injective (p a b : string) : p +:+ a = p +:+ b -> a = b.
Proof.
  induction p as [|c p IH]; intros H.
  - exact H.
  - change (String c p +:+ a) with (String c (p +:+ a)) in H.
    change (String c p +:+ b) with (String c (p +:+ b)) in H.
    injection H as H. now apply IH.
Qed.

(** X8.  Container naming is injective within each kind and the two
    kinds never collide: equal run (or index) container names come from
    equal identifiers, and no index container name is a run container
    name. *)
Theorem container_names_distinct (a b : string) :
  (getRunContainerName a = getRunContainerName b <-> a = b)
  /\ (getIndexContainerName a = getIndexContainerName b <-> a = b)
  /\ getIndexContainerName a <> getRunContainerName b.
Proof.
  unfold getRunContainerName, getIndexContainerName.
  split; [|split].
  - split; [apply append_injective|now intros ->].
  - split; [apply append_injective|now intros ->].
  - cbv [String.append]. discriminate.
Qed.

(** ** What the caller sees of a failure *)





(** X10.  A restore that throws does so in one of three ways only: with
    the very value its runtime command was rejected with, with the error
    of its exit-code guard ("docker unpause command failed" in simulated
    mode, "docker start command failed" otherwise) after a non-zero exit
    code was resolved, or with Error("postStart command failed"). *)
Theorem restore_error_taxonomy
    (env : Env) (forceSimulate : bool)
    (opts : TaskOperationsRestoreOptions) (s : state) (e : exn) :
  fst (restore env forceSimulate opts s) = Throw e ->
  let tr := new_events s (snd (restore env forceSimulate opts s)) in
  (exists c v, is_runtime_command (Exec c (Rejected v)) = true
               /\ last tr = Some (Exec c (Rejected v))
               /\ e = Thrown v)
  \/ (exists c r, is_runtime_command (Exec c (Resolved r)) = true
                  /\ In (Exec c (Resolved r)) tr
                  /\ exitCode r <> 0
                  /\ (e = Error "docker unpause command failed"
                      \/ e = Error "docker start command failed"))
  \/ e = Error "postStart command failed".
Proof.
  intros Hthrow tr.
  destruct (restore_run env forceSimulate opts s)
    as (s1 & rtr & Hinit & Hemits & Htr).
  destruct (operation_frame _ _ _ _ _ _ Hinit Hemits)
    as (probe & _ & Hnew & _).
  fold tr in Hnew. rewrite Hnew, Hthrow in *.
  remember (Throw e) as res eqn:Hres.
  set (simulate := willSimulate (getInitializeReturn forceSimulate s1)) in *.
  destruct Htr as [h v Hexec|h r Hexec Hexit|h r dtr res Hexec Hexit Hd].
  - injection Hres as <-. left.
    exists (runtime_command opts simulate), v.
    split; [apply runtime_command_is_runtime|].
    split; [|reflexivity]. rewrite app_assoc. apply last_snoc.
  - injection Hres as <-. right. left.
    exists (runtime_command opts simulate), r.
    split; [apply runtime_command_is_runtime|].
    split; [apply in_or_app; right; apply in_or_app; right; simpl; auto|].
    split; [exact Hexit|].
    unfold guard_error. destruct simulate; auto.
  - right. right.
    destruct (dispatch_result _ _ _ Hd) as [[-> _]|[-> _]];
      [discriminate|]. now injection Hres as <-.
Qed.

(** An unpause that is rejected: restore throws the rejection itself. *)
Lemma restore_error_taxonomy_witness :
  (exists c v,
      is_runtime_command (Exec c (Rejected v)) = true
      /\ last (new_events Scenario.fresh
                 (snd (restore
                         (Scenario.with_runtime
                            (Rejected (Scenario.exit_failure 1)))
                         true Scenario.run_9 Scenario.fresh)))
         = Some (Exec c (Rejected v))
      /\ Thrown (Scenario.exit_failure 1) = Thrown v)
  \/ (exists c r,
        is_runtime_command (Exec c (Resolved r)) = true
        /\ In (Exec c (Resolved r))
             (new_events Scenario.fresh
                (snd (restore
                        (Scenario.with_runtime
                           (Rejected (Scenario.exit_failure 1)))
                        true Scenario.run_9 Scenario.fresh)))
        /\ exitCode r <> 0
        /\ (Thrown (Scenario.exit_failure 1)
            = Error "docker unpause command failed"
            \/ Thrown (Scenario.exit_failure 1)
               = Error "docker start command failed"))
  \/ Thrown (Scenario.exit_failure 1) = Error "postStart command failed".
Proof.
  apply (restore_error_taxonomy
           (Scenario.with_runtime (Rejected (Scenario.exit_failure 1)))
           true Scenario.run_9 Scenario.fresh
           (Thrown (Scenario.exit_failure 1))).
  vm_compute. reflexivity.
Defined.

(** ** Index and create launch one container and nothing else *)

Lemma last_after {A} (l1 l2 : list A) :
  l2 <> [] -> last (l1 ++ l2) = last l2.
Proof.
  intros Hne. destruct (exists_last Hne) as (l & x & ->).
  now rewrite app_assoc, !last_snoc.
Qed.

Lemma launch_trace_outcome cmd label opts pre tr res :
  launch_trace cmd label opts pre tr res ->
  (exists o, In (Exec cmd o) tr)
  /\ ((res = Ok tt
       /\ exists l args, last tr = Some (Logged l args))
      \/ (exists v, res = Throw (Thrown v)
                    /\ isExecaChildProcess v = false
                    /\ last tr = Some (Exec cmd (Rejected v)))).
Proof.
  destruct 1 as [r|v Hv|v Hv].
  - split; [eexists; apply in_or_app; right; simpl; eauto|].
    left. split; [reflexivity|]. do 2 eexists. apply last_two.
  - split; [eexists; apply in_or_app; right; simpl; eauto|].
    left. split; [reflexivity|]. do 2 eexists. apply last_two.
  - split; [eexists; apply in_or_app; right; simpl; eauto|].
    right. exists v. split; [reflexivity|]. split; [exact Hv|].
    apply last_snoc.
Qed.

(** X11.  [index] and [create] each issue exactly one [docker run], the
    one built from the request (named [task-index-<shortCode>] resp.
    [task-run-<runId>]), and no hook or runtime command.  They either
    return normally, ending on a log, or throw the value the launch was
    rejected with, which is then not a child-process result; they never
    throw an error of their own. *)
Theorem launch_issues_one_container
    (env : Env) (forceSimulate : bool)
    (COORDINATOR_PORT COORDINATOR_HOST OTEL_EXPORTER_OTLP_ENDPOINT : string)
    (s : state) :
  (forall opts : TaskOperationsIndexOptions,
      let res :=
        fst (index env forceSimulate COORDINATOR_PORT COORDINATOR_HOST
               OTEL_EXPORTER_OTLP_ENDPOINT opts s) in
      let tr :=
        new_events s
          (snd (index env forceSimulate COORDINATOR_PORT COORDINATOR_HOST
                  OTEL_EXPORTER_OTLP_ENDPOINT opts s)) in
      let cmd :=
        docker_run
          (index_args COORDINATOR_PORT COORDINATOR_HOST
             OTEL_EXPORTER_OTLP_ENDPOINT opts
             ("task-index-" +:+ index_shortCode opts)) in
      count is_launch tr = 1%nat
      /\ (exists o, In (Exec cmd o) tr)
      /\ count is_hook_traffic tr = 0%nat
      /\ count is_runtime_command tr = 0%nat
      /\ ((res = Ok tt /\ exists l args, last tr = Some (Logged l args))
          \/ (exists v, res = Throw (Thrown v)
                        /\ isExecaChildProcess v = false
                        /\ last tr = Some (Exec cmd (Rejected v)))))
  /\ (forall opts : TaskOperationsCreateOptions,
        let res :=
          fst (create env forceSimulate COORDINATOR_PORT COORDINATOR_HOST
                 OTEL_EXPORTER_OTLP_ENDPOINT opts s) in
        let tr :=
          new_events s
            (snd (create env forceSimulate COORDINATOR_PORT COORDINATOR_HOST
                    OTEL_EXPORTER_OTLP_ENDPOINT opts s)) in
        let cmd :=
          docker_run
            (create_args COORDINATOR_PORT COORDINATOR_HOST
               OTEL_EXPORTER_OTLP_ENDPOINT opts
               ("task-run-" +:+ create_runId opts)) in
        count is_launch tr = 1%nat
        /\ (exists o, In (Exec cmd o) tr)
        /\ count is_hook_traffic tr = 0%nat
        /\ count is_runtime_command tr = 0%nat
        /\ ((res = Ok tt /\ exists l args, last tr = Some (Logged l args))
            \/ (exists v, res = Throw (Thrown v)
                          /\ isExecaChildProcess v = false
                          /\ last tr = Some (Exec cmd (Rejected v))))).
Proof.
  split; intros opts res tr cmd.
  - destruct (index_run env forceSimulate COORDINATOR_PORT COORDINATOR_HOST
                OTEL_EXPORTER_OTLP_ENDPOINT opts s)
      as (s1 & ltr & Hinit & Hemits & Htr).
    destruct (operation_frame _ _ _ _ _ _ Hinit Hemits)
      as (probe & _ & Hnew & _ & _ & Hold & Hfresh).
    fold tr in Hnew. fold res in Htr. rewrite Hnew.
    destruct (frame_probe_quiet _ _ _ _ Hold Hfresh) as [Hall _].
    destruct (probe_no_traffic _ Hall) as (Hp1 & _ & Hp3 & _).
    pose proof (probe_no_launch _ Hall) as Hp4.
    unfold index_command, getIndexContainerName in Htr. fold cmd in Htr.
    destruct (launch_trace_outcome _ _ _ _ _ _ Htr) as [[o Hin] Hout].
    assert (Hne : ltr <> []) by (intros ->; destruct Hin).
    apply launch_no_probe in Htr as (_ & Hl2 & Hl3 & Hl4); try reflexivity.
    rewrite !count_app, Hp1, Hp3, Hp4, Hl2, Hl3, Hl4.
    split; [reflexivity|].
    split; [exists o; apply in_or_app; now right|].
    split; [reflexivity|]. split; [reflexivity|].
    rewrite (last_after probe ltr Hne). exact Hout.
  - destruct (create_run env forceSimulate COORDINATOR_PORT COORDINATOR_HOST
                OTEL_EXPORTER_OTLP_ENDPOINT opts s)
      as (s1 & ltr & Hinit & Hemits & Htr).
    destruct (operation_frame _ _ _ _ _ _ Hinit Hemits)
      as (probe & _ & Hnew & _ & _ & Hold & Hfresh).
    fold tr in Hnew. fold res in Htr. rewrite Hnew.
    destruct (frame_probe_quiet _ _ _ _ Hold Hfresh) as [Hall _].
    destruct (probe_no_traffic _ Hall) as (Hp1 & _ & Hp3 & _).
    pose proof (probe_no_launch _ Hall) as Hp4.
    unfold create_command, getRunContainerName in Htr. fold cmd in Htr.
    destruct (launch_trace_outcome _ _ _ _ _ _ Htr) as [[o Hin] Hout].
    assert (Hne : ltr <> []) by (intros ->; destruct Hin).
    apply launch_no_probe in Htr as (_ & Hl2 & Hl3 & Hl4); try reflexivity.
    rewrite !count_app, Hp1, Hp3, Hp4, Hl2, Hl3, Hl4.
    split; [reflexivity|].
    split; [exists o; apply in_or_app; now right|].
    split; [reflexivity|]. split; [reflexivity|].
    rewrite (last_after probe ltr Hne). exact Hout.
Qed.

(** ** Retries repeat one request *)




(** ** The backoff function in general *)





(** ** Total time slept by a PostStart dispatch *)





(** ** Port discovery returns only what the log announces *)

Lemma take_digits_split (rest : string) :
  exists post,
    rest = Regex.take_digits rest +:+ post
    /\ all_digits (Regex.take_digits rest) = true
    /\ starts_with_digit post = false.
Proof.
  induction rest as [|c rest (post & Heq & Hds & Hpost)].
  - exists EmptyString. repeat split.
  - simpl. destruct (is_digit c) eqn:Hc.
    + exists post. split; [|split].
      * change (String c (Regex.take_digits rest) +:+ post)
          with (String c (Regex.take_digits rest +:+ post)).
        now rewrite <- Heq.
      * simpl. now rewrite Hc.
      * exact Hpost.
    + exists (String c rest). repeat split. exact Hc.
Qed.

Lemma match_here_first s ds :
  Regex.match_here s = Some ds ->
  exists post, occurs_at s EmptyString ds post.
Proof.
  unfold Regex.match_here. intros H.
  destruct (Regex.strip_prefix Regex.announcement s) as [rest|] eqn:Hstrip;
    [|discriminate].
  apply strip_prefix_Some in Hstrip.
  destruct (take_digits_split rest) as (post & Heq & Hds & Hpost).
  destruct (Regex.take_digits rest) as [|d tl] eqn:Hdigits; [discriminate|].
  injection H as <-. exists post.
  split; [|split; [discriminate|split; assumption]].
  change (EmptyString +:+ ?x) with x. now rewrite <- Heq.
Qed.

Lemma pattern_at_front s :
  pattern_at s EmptyString -> Regex.match_here s <> None.
Proof.
  intros (d & rest & Hd & ->). unfold Regex.match_here.
  change (EmptyString +:+ ?x) with x.
  rewrite strip_prefix_app. simpl. now rewrite Hd.
Qed.

Lemma pattern_at_unshift c c' s pre :
  pattern_at (String c s) (String c' pre) -> pattern_at s pre.
Proof.
  intros (d & rest & Hd & Heq).
  change (String c' pre +:+ ?x) with (String c' (pre +:+ x)) in Heq.
  injection Heq as _ ->. now exists d, rest.
Qed.

(** What [match] returns is the capture of the leftmost occurrence. *)
Lemma match_port_Some s ds :
  Regex.match_port s = Some ds ->
  exists pre post, first_occurrence s pre ds post.
Proof.
  induction s as [|c s IH]; rewrite match_port_eq.
  - intros H. destruct (Regex.match_here EmptyString) eqn:Hhere;
      [|discriminate].
    injection H as ->. destruct (match_here_first _ _ Hhere) as [post Hocc].
    exists EmptyString, post. split; [exact Hocc|]. intros; apply Nat.le_0_l.
  - destruct (Regex.match_here (String c s)) as [ds'|] eqn:Hhere.
    + intros [= ->]. destruct (match_here_first _ _ Hhere) as [post Hocc].
      exists EmptyString, post. split; [exact Hocc|].
      intros; apply Nat.le_0_l.
    + intros H. destruct (IH H) as (pre & post & (Heq & Hrest) & Hmin).
      exists (String c pre), post. split.
      * split; [|exact Hrest].
        change (String c pre +:+ ?x) with (String c (pre +:+ x)).
        now rewrite <- Heq.
      * intros pre' Hpat. destruct pre' as [|c' pre'].
        -- apply pattern_at_front in Hpat. congruence.
        -- apply pattern_at_unshift in Hpat. apply Hmin in Hpat.
           simpl. lia.
Qed.

Lemma match_port_None s : Regex.match_port s = None -> no_occurrence s.
Proof.
  induction s as [|c s IH]; rewrite match_port_eq; intros H pre Hpat.
  - destruct pre as [|c' pre].
    + apply pattern_at_front in Hpat.
      destruct (Regex.match_here EmptyString); congruence.
    + destruct Hpat as (d & rest & _ & Heq). discriminate.
  - destruct (Regex.match_here (String c s)) eqn:Hhere; [discriminate|].
    destruct pre as [|c' pre].
    + apply pattern_at_front in Hpat. congruence.
    + apply pattern_at_unshift in Hpat. exact (IH H pre Hpat).
Qed.

(** X16.  Port discovery never invents a port.  When it returns a port,
    the log command resolved, the pattern occurs in its output, the
    numeral captured by the leftmost occurrence is positive, and the port
    is the double nearest to it: never 0, never NaN.  When it throws,
    either the log command was rejected and that value is thrown, or the
    error is the port-extraction error and the output has no occurrence
    or a leftmost occurrence of value zero. *)
Theorem port_discovery_sound
    (env : Env) (containerName : string) (s : state) :
  (forall p,
      fst (getHttpServerPort env containerName s) = Ok p ->
      falsy p = false
      /\ exists r pre ds post,
           execa env (history s) (docker_logs containerName) = Resolved r
           /\ first_occurrence (stdout r) pre ds post
           /\ 0 < decimal_value ds
           /\ p = to_double (decimal_value ds))
  /\ (forall e,
        fst (getHttpServerPort env containerName s) = Throw e ->
        (exists v,
            execa env (history s) (docker_logs containerName) = Rejected v
            /\ e = Thrown v)
        \/ (exists r,
              execa env (history s) (docker_logs containerName) = Resolved r
              /\ e = Error "failed to extract port from logs"
              /\ (no_occurrence (stdout r)
                  \/ exists pre ds post,
                       first_occurrence (stdout r) pre ds post
                       /\ decimal_value ds = 0))).
Proof.
  rewrite getHttpServerPort_eq.
  destruct (execa env (history s) (docker_logs containerName)) as [r|v].
  - cbv zeta.
    destruct (Regex.match_port (stdout r)) as [ds|] eqn:Hmatch.
    + destruct (match_port_Some _ _ Hmatch) as (pre & post & Hfirst).
      pose proof Hfirst as [(_ & _ & Hds & _) _].
      rewrite (falsy_Number_digits ds Hds).
      pose proof (decimal_value_nonneg ds Hds) as Hnn.
      destruct (decimal_value ds =? 0) eqn:Hz; cbn [fst]; split.
      * discriminate.
      * intros e [= <-]. right. exists r. split; [reflexivity|].
        split; [reflexivity|]. right. apply Z.eqb_eq in Hz. eauto.
      * intros p [= <-]. apply Z.eqb_neq in Hz.
        split; [apply to_double_truthy; lia|].
        exists r, pre, ds, post. repeat split; try apply Hfirst. lia.
      * discriminate.
    + cbn. split; [discriminate|].
      intros e [= <-]. right. exists r. split; [reflexivity|].
      split; [reflexivity|]. left. now apply match_port_None.
  - cbn. split; [discriminate|].
    intros e [= <-]. left. eauto.
Qed.

(** The sample output: the port returned is 4000, read from the log. *)
Lemma port_discovery_sound_witness :
  falsy (Num 4000) = false
  /\ exists r pre ds post,
       execa (Scenario.with_logs Scenario.port_4000)
         (history Scenario.fresh) (docker_logs "task-run-run_9")
       = Resolved r
       /\ first_occurrence (stdout r) pre ds post
       /\ 0 < decimal_value ds
       /\ Num 4000 = to_double (decimal_value ds).
Proof.
  apply (proj1 (port_discovery_sound (Scenario.with_logs Scenario.port_4000)
                  "task-run-run_9" Scenario.fresh)).
  vm_compute. reflexivity.
Defined.

(** ** Every announced port is read back *)

Lemma decimal_value_of_uint_acc (d : Decimal.uint) (acc : positive) :
  decimal_value_from (Zpos acc) (NilEmpty.string_of_uint d)
  = Zpos (Pos.of_uint_acc d acc).
Proof.
  revert acc. induction d as [|d IH|d IH|d IH|d IH|d IH|d IH|d IH|d IH|d IH|d IH];
    intros acc; [reflexivity|..];
    cbn [NilEmpty.string_of_uint decimal_value_from Pos.of_uint_acc];
    rewrite <- IH; f_equal; cbv [digit_value N_of_ascii N_of_digits]; lia.
Qed.

Lemma decimal_value_of_uint (d : Decimal.uint) :
  decimal_value (NilEmpty.string_of_uint d) = Z.of_N (Pos.of_uint d).
Proof.
  unfold decimal_value.
  induction d as [|d IH|d IH|d IH|d IH|d IH|d IH|d IH|d IH|d IH|d IH];
    [reflexivity|exact IH|..];
    cbn [NilEmpty.string_of_uint decimal_value_from Pos.of_uint Z.of_N];
    rewrite <- decimal_value_of_uint_acc; f_equal.
Qed.

Lemma all_digits_of_uint (d : Decimal.uint) :
  all_digits (NilEmpty.string_of_uint d) = true.
Proof.
  induction d; [reflexivity|..]; cbn [NilEmpty.string_of_uint all_digits];
    rewrite IHd; reflexivity.
Qed.

(** The numeral a template literal prints for a positive integer. *)
Lemma string_of_Z_pos (p : positive) :
  string_of_Z (Zpos p) = NilEmpty.string_of_uint (Pos.to_uint p)
  /\ string_of_Z (Zpos p) <> EmptyString.
Proof.
  unfold string_of_Z. cbn [Z.to_int NilZero.string_of_int].
  pose proof (Unsigned.to_uint_nonnil p) as Hne.
  unfold NilZero.string_of_uint.
  destruct (Pos.to_uint p); [contradiction|..]; split;
    first [reflexivity | discriminate].
Qed.

(** Parsing undoes printing. *)
Lemma decimal_value_string_of_Z (n : Z) :
  0 <= n ->
  decimal_value (string_of_Z n) = n
  /\ all_digits (string_of_Z n) = true
  /\ string_of_Z n <> EmptyString.
Proof.
  intros Hn. destruct n as [|p|p]; [repeat split; discriminate| |lia].
  destruct (string_of_Z_pos p) as [-> Hne'].
  pose proof (string_of_Z_pos p) as [Heq Hne]. rewrite Heq in Hne.
  split; [|split; [apply all_digits_of_uint|exact Hne]].
  rewrite decimal_value_of_uint, Unsigned.of_to. reflexivity.
Qed.

(** X17.  Every port that can be announced is read back exactly: if the
    leftmost occurrence of the pattern in the snapshot carries the decimal
    numeral of an integer n with 0 < n < 2^53 (every TCP port is such an
    n), port discovery returns n.  In particular this holds for a
    snapshot that begins with the announcement, followed by anything that
    does not start with a digit. *)
Theorem announced_port_is_returned
    (env : Env) (containerName : string) (s : state) (r : ExecaReturnValue)
    (n : Z) :
  execa env (history s) (docker_logs containerName) = Resolved r ->
  0 < n < 2 ^ 53 ->
  (forall pre post,
      first_occurrence (stdout r) pre (string_of_Z n) post ->
      fst (getHttpServerPort env containerName s) = Ok (Num n))
  /\ (forall post,
        starts_with_digit post = false ->
        stdout r = Regex.announcement +:+ string_of_Z n +:+ post ->
        fst (getHttpServerPort env containerName s) = Ok (Num n)).
Proof.
  intros Hexec [Hpos Hsmall].
  destruct (decimal_value_string_of_Z n ltac:(lia)) as (Hval & Hds & Hne).
  assert (Hfound : forall pre post,
             first_occurrence (stdout r) pre (string_of_Z n) post ->
             fst (getHttpServerPort env containerName s) = Ok (Num n)).
  { intros pre post Hfirst.
    rewrite (getHttpServerPort_found _ _ _ _ _ _ _ Hexec Hfirst), Hval.
    destruct (n =? 0) eqn:Hz; [apply Z.eqb_eq in Hz; lia|].
    now rewrite to_double_exact. }
  split; [exact Hfound|].
  intros post Hpost Hout. apply (Hfound EmptyString post).
  split; [|intros; apply Nat.le_0_l].
  split; [exact Hout|]. auto.
Qed.

(** Port 65535, the largest TCP port. *)
Lemma announced_port_is_returned_witness :
  fst (getHttpServerPort
         (Scenario.with_logs "http server listening on port 65535")
         "task-run-run_9" Scenario.fresh)
  = Ok (Num 65535).
Proof.
  destruct (announced_port_is_returned
              (Scenario.with_logs "http server listening on port 65535")
              "task-run-run_9" Scenario.fresh
              (Scenario.ok "http server listening on port 65535") 65535
              eq_refl) as [_ Hfront].
  - split; reflexivity.
  - apply (Hfront ""); reflexivity.
Defined.

(** * Background functions: the version check *)

Section VersionCheck.

Import BackgroundFunction.

Lemma append_empty_r (s : string) : s +:+ EmptyString = s.
Proof.
  induction s as [|c s IH]; [reflexivity|].
  change (String c s +:+ EmptyString) with (String c (s +:+ EmptyString)).
  now rewrite IH.
Qed.

Lemma skip_digits_split (s : string) :
  s = Regex.take_digits s +:+ skip_digits s
  /\ all_digits (Regex.take_digits s) = true
  /\ starts_with_digit (skip_digits s) = false.
Proof.
  induction s as [|c s (Heq & Hds & Hrest)]; [repeat split|].
  simpl. destruct (is_digit c) eqn:Hc.
  - split; [|split].
    + change (String c (Regex.take_digits s) +:+ skip_digits s)
        with (String c (Regex.take_digits s +:+ skip_digits s)).
      now rewrite <- Heq.
    + simpl. now rewrite Hc.
    + exact Hrest.
  - repeat split. exact Hc.
Qed.

Lemma skip_digits_app (a rest : string) :
  all_digits a = true ->
  starts_with_digit rest = false ->
  skip_digits (a +:+ rest) = rest.
Proof.
  intros Ha Hrest. induction a as [|c a IH].
  - destruct rest as [|c rest]; [reflexivity|].
    simpl in *. now rewrite Hrest.
  - simpl in Ha. apply andb_prop in Ha as [Hc Ha].
    change (String c a +:+ rest) with (String c (a +:+ rest)).
    simpl. rewrite Hc. now apply IH.
Qed.

(** [\d+] consumes a non-empty run of digits, all of it. *)
Lemma digits_Some (s rest : string) :
  digits s = Some rest <->
  exists a, a <> EmptyString /\ all_digits a = true
            /\ s = a +:+ rest /\ starts_with_digit rest = false.
Proof.
  unfold digits. split.
  - destruct (starts_with_digit s) eqn:Hs; [|discriminate].
    intros [= <-]. destruct (skip_digits_split s) as (Heq & Hds & Hrest).
    exists (Regex.take_digits s). split; [|auto].
    destruct s as [|c s]; [discriminate|]. simpl in Hs. simpl.
    rewrite Hs. discriminate.
  - intros (a & Hne & Ha & -> & Hrest).
    destruct a as [|c a]; [contradiction|].
    pose proof Ha as Ha'. simpl in Ha'. apply andb_prop in Ha' as [Hc _].
    change (String c a +:+ rest) with (String c (a +:+ rest)) at 1.
    cbn [starts_with_digit]. rewrite Hc.
    now rewrite skip_digits_app.
Qed.

Lemma dot_Some (s rest : string) : dot s = Some rest <-> s = "." +:+ rest.
Proof.
  unfold dot. destruct s as [|c s].
  - split; discriminate.
  - destruct (Ascii.eqb c ".") eqn:Hc.
    + apply Ascii.eqb_eq in Hc. subst c. split.
      * now intros [= ->].
      * now intros [= ->].
    + split; [discriminate|]. intros [= -> _].
      discriminate.
Qed.

Lemma matches_version_iff (version : string) :
  matches_version version = true <-> three_numbers version.
Proof.
  unfold matches_version, three_numbers. split.
  - destruct (digits version) as [s1|] eqn:H1; [|discriminate].
    destruct (dot s1) as [s2|] eqn:H2; [|discriminate].
    destruct (digits s2) as [s3|] eqn:H3; [|discriminate].
    destruct (dot s3) as [s4|] eqn:H4; [|discriminate].
    destruct (digits s4) as [s5|] eqn:H5; [|discriminate].
    intros H6. apply String.eqb_eq in H6. subst s5.
    apply digits_Some in H1 as (a & Hna & Ha & -> & _).
    apply dot_Some in H2 as ->.
    apply digits_Some in H3 as (b & Hnb & Hb & -> & _).
    apply dot_Some in H4 as ->.
    apply digits_Some in H5 as (c & Hnc & Hc & -> & _).
    exists a, b, c. rewrite append_empty_r. auto 10.
  - intros (a & b & c & -> & Hna & Ha & Hnb & Hb & Hnc & Hc).
    assert (H1 : digits (a +:+ "." +:+ b +:+ "." +:+ c)
                 = Some ("." +:+ b +:+ "." +:+ c)).
    { apply digits_Some. exists a. auto. }
    assert (H3 : digits (b +:+ "." +:+ c) = Some ("." +:+ c)).
    { apply digits_Some. exists b. auto. }
    assert (H5 : digits c = Some EmptyString).
    { apply digits_Some. exists c. rewrite append_empty_r. auto. }
    assert (H2 : dot ("." +:+ b +:+ "." +:+ c) = Some (b +:+ "." +:+ c))
      by (now apply dot_Some).
    assert (H4 : dot ("." +:+ c) = Some c) by (now apply dot_Some).
    rewrite H1, H2, H3, H4, H5. reflexivity.
Qed.

End VersionCheck.

(** X18.  A background function's version is accepted exactly when it is
    three non-empty runs of decimal digits separated by two dots, with
    nothing before, between or after; any other version makes [#validate]
    throw the "Invalid job version" error quoting it.  The constructor
    validates before it attaches: with a rejected version it throws that
    error and leaves the client untouched, with an accepted one it does
    what [attachBackgroundFunction] does.  The id is never checked. *)
Theorem version_accepted_iff
    (Client : Type)
    (attachBackgroundFunction :
       BackgroundFunction.BackgroundFunctionOptions -> Client ->
       result unit * Client)
    (options : BackgroundFunction.BackgroundFunctionOptions)
    (client : Client) :
  let version := BackgroundFunction.options_version options in
  (BackgroundFunction.validate options = Ok tt
   <-> BackgroundFunction.three_numbers version)
  /\ (BackgroundFunction.validate options <> Ok tt ->
      BackgroundFunction.validate options
      = Throw (BackgroundFunction.invalid_version version)
      /\ BackgroundFunction.construct Client attachBackgroundFunction
           options client
         = (Throw (BackgroundFunction.invalid_version version), client))
  /\ (BackgroundFunction.three_numbers version ->
      BackgroundFunction.construct Client attachBackgroundFunction
        options client
      = attachBackgroundFunction options client).
Proof.
  intros version. unfold BackgroundFunction.construct.
  unfold BackgroundFunction.validate. fold version.
  pose proof (matches_version_iff version) as Hiff.
  destruct (BackgroundFunction.matches_version version) eqn:Hm; cbn.
  - split; [split; [intros _; now apply Hiff|reflexivity]|].
    split; [intros H; now contradiction H|reflexivity].
  - assert (Hno : ~ BackgroundFunction.three_numbers version).
    { intros H. apply Hiff in H. discriminate. }
    split; [split; [discriminate|intros H; contradiction]|].
    split; [intros _; split; reflexivity|intros H; contradiction].
Qed.

(** Versions at the edges of the pattern. *)
Example version_edge_cases :
  BackgroundFunction.matches_version "1.0.0" = true
  /\ BackgroundFunction.matches_version "01.002.3" = true
  /\ BackgroundFunction.matches_version "" = false
  /\ BackgroundFunction.matches_version "1.0" = false
  /\ BackgroundFunction.matches_version "1.0.0.0" = false
  /\ BackgroundFunction.matches_version "v1.0.0" = false
  /\ BackgroundFunction.matches_version "1.0.0-beta" = false
  /\ BackgroundFunction.matches_version "1..0" = false.
Proof. repeat split. Qed.

(** Version 1.2.3 with an attach that counts. *)
Lemma version_accepted_iff_witness :
  BackgroundFunction.construct nat (fun _ n => (Ok tt, S n))
    {| BackgroundFunction.options_id := "my job";
       BackgroundFunction.options_name := "My job";
       BackgroundFunction.options_version := "1.2.3";
       BackgroundFunction.options_enabled := None |}
    0%nat
  = (Ok tt, 1%nat).
Proof.
  apply (proj2 (proj2 (version_accepted_iff nat (fun _ n => (Ok tt, S n))
                         {| BackgroundFunction.options_id := "my job";
                            BackgroundFunction.options_name := "My job";
                            BackgroundFunction.options_version := "1.2.3";
                            BackgroundFunction.options_enabled := None |}
                         0%nat))).
  exists "1", "2", "3". repeat split; discriminate.
Defined.

(** * The child-process test *)

